(** * withings-exporter: a shallow embedding of [main.go]

    The program reads three environment variables, optionally runs the
    OAuth2 authorization-code exchange ([oauthFlow]), fetches the weight
    measurements ([getWeightMeasurements]), publishes the first value as the
    gauge [withings_current_weight] and serves it on [:8080/metrics].

    The three functions of [main.go] are embedded statement by statement in
    a small monad that threads the process state (a trace of what the
    process did, the gauge objects, the default registry and the default
    mux) and stops at the first panic.  Everything that lies outside the
    repository is either a field of [World] (what the environment, the
    console, the network and the port answer, and the library routines
    looked at only through their results) or a small executable model of
    the library routine involved ([encoding/json]'s stores into Go values,
    the Prometheus registry and text format).  [float64] is Rocq's primitive
    binary64.

    The file has three parts: the model, the vocabulary in which the
    properties are stated (with the mock documents and worlds), and the
    properties.  C1 to C10 are the properties the specification states;
    X1 to X17 are further properties of the code, the last part of the
    file holding those that look at [main] as a whole, at the edges of
    the two queries and at the second program. *)

From Stdlib Require Import ZArith List String Ascii Bool Lia DecimalString.
From Stdlib Require Import Floats.PrimFloat.
Import ListNotations.

Local Open Scope string_scope.
Local Open Scope Z_scope.

(** ** Strings *)

(** The line feed that [fmt.Println] and the [\n] of a format string emit. *)
Definition LF : string := String (ascii_of_nat 10) EmptyString.

Definition is_empty (s : string) : bool :=
  match s with EmptyString => true | String _ _ => false end.

(** [contains hay needle]: [needle] occurs in [hay] as a run of bytes. *)
Definition contains (hay needle : string) : Prop :=
  exists pre post, hay = pre ++ needle ++ post.

(** ** JSON documents, as [encoding/json] reads them *)

(** A number token, recorded by what [strconv] makes of its literal:
    [strconv.ParseFloat(lit, 64)] and [strconv.ParseInt(lit, 10, 64)],
    each [None] when the conversion reports an error (out of range, or,
    for the integer reading, a fraction or an exponent in the literal). *)
Record number := Num { as_float64 : option float; as_int64 : option Z }.

#[local] Unset Elimination Schemes.
Inductive json :=
| JNull
| JBool (b : bool)
| JNumber (n : number)
| JString (s : string)
| JArray (elems : list json)
| JObject (members : list (string * json)).
#[local] Set Elimination Schemes.

(** What [ioutil.ReadAll] delivered, seen through the decoder's scanner:
    bytes that are not one well-formed JSON text (with the message of the
    [SyntaxError] that [json.Unmarshal] answers) or a document. *)
Inductive payload :=
| NotJSON (msg : string)
| Doc (j : json).

Inductive jerror :=
| SyntaxError (msg : string)
| UnmarshalTypeError (value gotype : string).

Definition describe (j : json) : string :=
  match j with
  | JNull => "null" | JBool _ => "bool" | JNumber _ => "number"
  | JString _ => "string" | JArray _ => "array" | JObject _ => "object"
  end.

(** Field names are matched without regard to case.  The fold is
    Unicode's simple folding; for the ASCII names of this program the only
    runes outside ASCII that fold onto a letter are U+017F (long s, bytes
    C5 BF) and U+212A (Kelvin sign, bytes E2 84 AA). *)
Definition upper (c : ascii) : ascii :=
  let n := nat_of_ascii c in
  if ((97 <=? n) && (n <=? 122))%nat then ascii_of_nat (n - 32) else c.

Fixpoint foldName (s : string) : string :=
  match s with
  | EmptyString => EmptyString
  | String c r =>
      match nat_of_ascii c, r with
      | 197%nat, String d r' =>
          if (nat_of_ascii d =? 191)%nat then String "S" (foldName r')
          else String c (foldName r)
      | 226%nat, String d (String e r') =>
          if ((nat_of_ascii d =? 132) && (nat_of_ascii e =? 170))%nat
          then String "K" (foldName r')
          else String c (foldName r)
      | _, _ => String (upper c) (foldName r)
      end
  end.

Definition EqualFold (key name : string) : bool :=
  String.eqb (foldName key) (foldName name).

(** *** Stores into Go values

    Each store takes the JSON value and the current content of the Go
    variable and returns the new content with the type errors met on the
    way.  A value of the wrong kind leaves the variable as it was and
    is reported; [null] leaves scalars and structs as they were. *)
Definition stored (T : Type) : Type := (T * list jerror)%type.

Definition mismatch {T} (j : json) (gotype : string) (cur : T) : stored T :=
  (cur, [UnmarshalTypeError (describe j) gotype]).

Definition store_string (j : json) (cur : string) : stored string :=
  match j with
  | JNull => (cur, [])
  | JString s => (s, [])
  | _ => mismatch j "string" cur
  end.

(** [int] and [int64] are both 64 bits wide on the platforms the exporter
    is built for. *)
Definition store_int (gotype : string) (j : json) (cur : Z) : stored Z :=
  match j with
  | JNull => (cur, [])
  | JNumber n =>
      match as_int64 n with
      | Some z => (z, [])
      | None => mismatch j gotype cur
      end
  | _ => mismatch j gotype cur
  end.

Definition store_float64 (j : json) (cur : float) : stored float :=
  match j with
  | JNull => (cur, [])
  | JNumber n =>
      match as_float64 n with
      | Some f => (f, [])
      | None => mismatch j "float64" cur
      end
  | _ => mismatch j "float64" cur
  end.

Section Composite.
Context {T : Type}.

(** An object into a struct: the members are taken in document order;
    [field key v] stores [v] into the field that [key] names, and skips
    a key that names none. *)
Fixpoint store_members (field : string -> json -> T -> stored T)
    (ms : list (string * json)) (cur : T) : stored T :=
  match ms with
  | [] => (cur, [])
  | (k, v) :: ms' =>
      let '(cur1, e1) := field k v cur in
      let '(cur2, e2) := store_members field ms' cur1 in
      (cur2, (e1 ++ e2)%list)
  end.

Definition store_struct (gotype : string)
    (field : string -> json -> T -> stored T) (j : json) (cur : T) : stored T :=
  match j with
  | JNull => (cur, [])
  | JObject ms => store_members field ms cur
  | _ => mismatch j gotype cur
  end.

(** An array into a slice: element [i] is decoded into the element the
    slice already holds at [i], or into a zero value when the slice is
    shorter; the slice ends up as long as the array.  [null] makes the
    slice nil. *)
Fixpoint store_elems (elem : json -> T -> stored T) (zero : T)
    (es : list json) (cur : list T) : stored (list T) :=
  match es with
  | [] => ([], [])
  | e :: es' =>
      let '(x, e1) := elem e (hd zero cur) in
      let '(xs, e2) := store_elems elem zero es' (tl cur) in
      (x :: xs, (e1 ++ e2)%list)
  end.

Definition store_slice (gotype : string) (elem : json -> T -> stored T)
    (zero : T) (j : json) (cur : list T) : stored (list T) :=
  match j with
  | JNull => ([], [])
  | JArray es => store_elems elem zero es cur
  | _ => mismatch j gotype cur
  end.
End Composite.

(** ** The two response types of [main.go] *)

Module RequestToken.
Record body := mkBody {
  AccessToken : string;    (* `json:"access_token"` *)
  RefreshToken : string;   (* `json:"refresh_token"` *)
  Scope : string;          (* `json:"scope"` *)
  ExpiresIn : string;      (* `json:"expires_in"` *)
  TokenType : string       (* `json:"token_type"` *)
}.

Record t := mk {
  Status : Z;              (* `json:"status"` *)
  Error : string;          (* `json:"error"` *)
  Body : body              (* `json:"body"` *)
}.

(** [RequestToken{}] *)
Definition zeroBody : body := mkBody "" "" "" "" "".
Definition zero : t := mk 0 "" zeroBody.

Definition Body_field (key : string) (j : json) (b : body) : stored body :=
  if EqualFold key "access_token" then
    let '(x, e) := store_string j (AccessToken b) in
    (mkBody x (RefreshToken b) (Scope b) (ExpiresIn b) (TokenType b), e)
  else if EqualFold key "refresh_token" then
    let '(x, e) := store_string j (RefreshToken b) in
    (mkBody (AccessToken b) x (Scope b) (ExpiresIn b) (TokenType b), e)
  else if EqualFold key "scope" then
    let '(x, e) := store_string j (Scope b) in
    (mkBody (AccessToken b) (RefreshToken b) x (ExpiresIn b) (TokenType b), e)
  else if EqualFold key "expires_in" then
    let '(x, e) := store_string j (ExpiresIn b) in
    (mkBody (AccessToken b) (RefreshToken b) (Scope b) x (TokenType b), e)
  else if EqualFold key "token_type" then
    let '(x, e) := store_string j (TokenType b) in
    (mkBody (AccessToken b) (RefreshToken b) (Scope b) (ExpiresIn b) x, e)
  else (b, []).

Definition field (key : string) (j : json) (r : t) : stored t :=
  if EqualFold key "status" then
    let '(x, e) := store_int "int" j (Status r) in (mk x (Error r) (Body r), e)
  else if EqualFold key "error" then
    let '(x, e) := store_string j (Error r) in (mk (Status r) x (Body r), e)
  else if EqualFold key "body" then
    let '(x, e) := store_struct "struct" Body_field j (Body r) in
    (mk (Status r) (Error r) x, e)
  else (r, []).

Definition store : json -> t -> stored t := store_struct "main.RequestToken" field.
End RequestToken.

Module Measures.
Record Measure := mkMeasure {
  Value : float;           (* `json:"value"` *)
  Type_ : Z                (* `json:"type"` *)
}.

Record Group := mkGroup {
  Date : Z;                (* `json:"date"` *)
  Created : Z;             (* `json:"created"` *)
  Measures : list Measure  (* no tag: the key is the field name *)
}.

Record body := mkBody {
  MeasureGroups : list Group   (* `json:"measuregrps"` *)
}.

Record t := mk {
  Status : Z;              (* `json:"status"` *)
  Body : body              (* `json:"body"` *)
}.

(** [Measures{}] *)
Definition zeroMeasure : Measure := mkMeasure 0%float 0.
Definition zeroGroup : Group := mkGroup 0 0 [].
Definition zero : t := mk 0 (mkBody []).

Definition Measure_field (key : string) (j : json) (m : Measure) : stored Measure :=
  if EqualFold key "value" then
    let '(x, e) := store_float64 j (Value m) in (mkMeasure x (Type_ m), e)
  else if EqualFold key "type" then
    let '(x, e) := store_int "int" j (Type_ m) in (mkMeasure (Value m) x, e)
  else (m, []).

Definition Group_field (key : string) (j : json) (g : Group) : stored Group :=
  if EqualFold key "date" then
    let '(x, e) := store_int "int64" j (Date g) in
    (mkGroup x (Created g) (Measures g), e)
  else if EqualFold key "created" then
    let '(x, e) := store_int "int64" j (Created g) in
    (mkGroup (Date g) x (Measures g), e)
  else if EqualFold key "Measures" then
    let '(x, e) :=
      store_slice "[]struct" (store_struct "struct" Measure_field) zeroMeasure
        j (Measures g) in
    (mkGroup (Date g) (Created g) x, e)
  else (g, []).

Definition Body_field (key : string) (j : json) (b : body) : stored body :=
  if EqualFold key "measuregrps" then
    let '(x, e) :=
      store_slice "[]struct" (store_struct "struct" Group_field) zeroGroup
        j (MeasureGroups b) in
    (mkBody x, e)
  else (b, []).

Definition field (key : string) (j : json) (r : t) : stored t :=
  if EqualFold key "status" then
    let '(x, e) := store_int "int" j (Status r) in (mk x (Body r), e)
  else if EqualFold key "body" then
    let '(x, e) := store_struct "struct" Body_field j (Body r) in
    (mk (Status r) x, e)
  else (r, []).

Definition store : json -> t -> stored t := store_struct "main.Measures" field.
End Measures.

(** [json.Unmarshal(body, &v)]: the new content of [v] and the error
    returned.  Text that is not well-formed JSON is rejected before
    anything is stored; otherwise the document is stored as far as it
    fits and the first type error, if any, is returned. *)
Definition json_Unmarshal {T} (store : json -> T -> stored T)
    (data : payload) (v : T) : T * option jerror :=
  match data with
  | NotJSON msg => (v, Some (SyntaxError msg))
  | Doc j => let '(v', errs) := store j v in (v', hd_error errs)
  end.

(** ** The process and what surrounds it *)

(** An [*http.Request] as the program builds it. *)
Record Request := mkRequest {
  Method : string;
  URL : string;
  Header : list (string * string)
}.

(** An [*http.Response]; [Body] is what [ioutil.ReadAll(res.Body)] yields
    (its error is dropped by the program, so a short read simply shows as
    the payload that did arrive). *)
Record Response := mkResponse {
  StatusCode : Z;
  Body : payload
}.

(** Everything the embedding takes as given: the environment, the console,
    the network, the port, and the library routines that are looked at
    only through their results. *)
Record World := mkWorld {
  (** [os.Getenv]: the empty string for an unset variable. *)
  Getenv : string -> string;
  (** What [fmt.Scanln(&authCode)] leaves in [authCode]. *)
  Scanln : string;
  (** [net/url]'s verdict on a raw URL: the error message when
      [http.NewRequest] rejects it. *)
  url_Parse : string -> option string;
  (** The pair [res, err] that the client's [Do] returns. *)
  RoundTrip : Request -> option Response * option string;
  (** The metric families the default registry holds on the library's own
      account (Go runtime, process, handler instrumentation). *)
  builtin : list string;
  (** The text the [n]-th scrape collects for a builtin family. *)
  collect : nat -> string -> string;
  (** [strconv.FormatFloat(f, 'g', -1, 64)]. *)
  FormatFloat_g : float -> string;
  (** [Some err] when [http.ListenAndServe] cannot bind its address. *)
  bind_error : option string
}.

(** A gauge object; a [prometheus.Gauge] value in the program is a
    reference to one, modelled as its index in [gauges]. *)
Record Gauge := mkGauge {
  Name : string;
  Help : string;
  val : float
}.

Inductive handler := promhttp_Handler.

(** What the process did, newest first in [trace]. *)
Inductive event :=
| Call (fn : string) (args : list string)   (* a function of main.go is entered *)
| Stdout (text : string)                    (* fmt.Println, fmt.Printf *)
| Stdin                                     (* fmt.Scanln *)
| Do (req : Request)                        (* client.Do(req) *)
| Log (format : string) (args : list float) (* log.Printf, log.Fatal *)
| Register (g : nat)                        (* prometheus.MustRegister *)
| SetGauge (g : nat) (v : float)            (* (Gauge).Set *)
| Handle (pattern : string)                 (* http.Handle *)
| Listen (addr : string).                   (* the listener is bound *)

Record Proc := mkProc {
  trace : list event;
  gauges : list Gauge;
  registry : list nat;                      (* prometheus.DefaultRegisterer *)
  mux : list (string * handler)             (* http.DefaultServeMux *)
}.

Definition boot : Proc := mkProc [] [] [] [].

(** The trace in the order things happened. *)
Definition history (s : Proc) : list event := rev (trace s).

Inductive panic :=
| NilDereference
| IndexOutOfRange (index length : nat)
| AlreadyRegistered (name : string)
| MultipleRegistrations (pattern : string).

(** How a piece of the program ends: it yields a value, it panics, the
    process exits ([log.Fatal]), or the goroutine stays inside
    [http.ListenAndServe], serving. *)
Inductive outcome (A : Type) :=
| Ret (a : A)
| Panicked (p : panic)
| Exited (code : Z)
| Serving.
Arguments Ret {A} a.
Arguments Panicked {A} p.
Arguments Exited {A} code.
Arguments Serving {A}.

Definition M (A : Type) : Type := Proc -> outcome A * Proc.

Definition ret {A} (a : A) : M A := fun s => (Ret a, s).

Definition bind {A B} (m : M A) (k : A -> M B) : M B :=
  fun s =>
    match m s with
    | (Ret a, s') => k a s'
    | (Panicked p, s') => (Panicked p, s')
    | (Exited c, s') => (Exited c, s')
    | (Serving, s') => (Serving, s')
    end.

Declare Scope go_scope.
Delimit Scope go_scope with go.
Notation "x <- m ;; k" := (bind m (fun x => k))
  (at level 61, m at next level, right associativity) : go_scope.
Notation "' pat <- m ;; k" := (bind m (fun x => match x with pat => k end))
  (at level 61, pat pattern, m at next level, right associativity) : go_scope.
Notation "m ;; k" := (bind m (fun _ => k))
  (at level 61, right associativity) : go_scope.
Local Open Scope go_scope.

Definition emit (e : event) : M unit :=
  fun s => (Ret tt, mkProc (e :: trace s) (gauges s) (registry s) (mux s)).

Definition raise {A} (p : panic) : M A := fun s => (Panicked p, s).

(** *** fmt, strconv *)

Definition Println (line : string) : M unit := emit (Stdout (line ++ LF)).

(** [fmt.Printf], its format already expanded. *)
Definition Printf (text : string) : M unit := emit (Stdout text).

(** The verb [%d]. *)
Definition fmt_d (z : Z) : string := DecimalString.NilZero.string_of_int (Z.to_int z).

(** [if err != nil { fmt.Println(err) }] *)
Definition print_if (err : option string) : M unit :=
  match err with
  | Some e => Println e
  | None => ret tt
  end.

Definition fmt_Scanln (w : World) : M string :=
  emit Stdin ;; ret (Scanln w).

(** *** net/http, client side *)

Definition http_NewRequest (w : World) (method url : string)
  : option Request * option string :=
  match url_Parse w url with
  | Some err => (None, Some err)
  | None => (Some (mkRequest method url []), None)
  end.

(** [req.Header.Add(key, value)]; [req] may be nil. *)
Definition Header_Add (req : option Request) (key value : string) : M (option Request) :=
  match req with
  | None => raise NilDereference
  | Some r => ret (Some (mkRequest (Method r) (URL r) (Header r ++ [(key, value)])))
  end.

(** [client.Do(req)]: it reads [req.URL] before anything else. *)
Definition client_Do (w : World) (req : option Request)
  : M (option Response * option string) :=
  match req with
  | None => raise NilDereference
  | Some r => emit (Do r) ;; ret (RoundTrip w r)
  end.

(** [defer res.Body.Close()]: the receiver [res.Body] is evaluated when
    the [defer] statement runs, so a nil [res] panics there.  Closing the
    body has no effect the model keeps. *)
Definition defer_Body_Close (res : option Response) : M Response :=
  match res with
  | None => raise NilDereference
  | Some r => ret r
  end.

(** [xs[i]] *)
Definition index {A} (xs : list A) (i : nat) : M A :=
  match nth_error xs i with
  | Some x => ret x
  | None => raise (IndexOutOfRange i (List.length xs))
  end.

(** *** prometheus, net/http server side, log *)

Definition with_gauges (s : Proc) (gs : list Gauge) : Proc :=
  mkProc (trace s) gs (registry s) (mux s).

(** [prometheus.NewGauge(prometheus.GaugeOpts{Name: name, Help: help})]:
    a fresh gauge object holding 0. *)
Definition NewGauge (name help : string) : M nat :=
  fun s => (Ret (List.length (gauges s)),
            with_gauges s (gauges s ++ [mkGauge name help 0%float])).

Definition registered_names (w : World) (s : Proc) : list string :=
  builtin w ++ flat_map (fun g => match nth_error (gauges s) g with
                                  | Some c => [Name c]
                                  | None => []
                                  end) (registry s).

(** [prometheus.MustRegister(g)]: panics when the default registry
    already holds a family of the gauge's name. *)
Definition MustRegister (w : World) (g : nat) : M unit :=
  fun s =>
    match nth_error (gauges s) g with
    | None => (Panicked NilDereference, s)
    | Some c =>
        if existsb (String.eqb (Name c)) (registered_names w s)
        then (Panicked (AlreadyRegistered (Name c)), s)
        else (Ret tt, mkProc (Register g :: trace s) (gauges s)
                             (registry s ++ [g]) (mux s))
    end.

Fixpoint set_val (gs : list Gauge) (g : nat) (v : float) : list Gauge :=
  match gs, g with
  | [], _ => []
  | c :: gs', O => mkGauge (Name c) (Help c) v :: gs'
  | c :: gs', S g' => c :: set_val gs' g' v
  end.

(** [g.Set(v)]: writes the gauge object that [g] refers to, which is the
    one the registry reads at every scrape. *)
Definition Gauge_Set (g : nat) (v : float) : M unit :=
  fun s => (Ret tt, mkProc (SetGauge g v :: trace s) (set_val (gauges s) g v)
                           (registry s) (mux s)).

(** [http.Handle(pattern, h)] on the default mux: panics on an empty
    pattern and on a pattern registered before. *)
Definition http_Handle (pattern : string) (h : handler) : M unit :=
  fun s =>
    if is_empty pattern || existsb (fun ph => String.eqb (fst ph) pattern) (mux s)
    then (Panicked (MultipleRegistrations pattern), s)
    else (Ret tt, mkProc (Handle pattern :: trace s) (gauges s) (registry s)
                         (mux s ++ [(pattern, h)])).

Definition log_Printf (format : string) (args : list float) : M unit :=
  emit (Log format args).

(** [http.ListenAndServe(addr, nil)]: returns at once with an error when
    the address cannot be bound, and otherwise does not return. *)
Definition http_ListenAndServe (w : World) (addr : string) : M string :=
  match bind_error w with
  | Some err => ret err
  | None => fun s => (Serving, mkProc (Listen addr :: trace s) (gauges s)
                                      (registry s) (mux s))
  end.

(** [log.Fatal(err)]: the message, then [os.Exit(1)]. *)
Definition log_Fatal {A} (err : string) : M A :=
  emit (Log err []) ;; (fun s => (Exited 1, s)).

(** ** [main.go] *)

Definition oauthFlow (w : World)
    (withingsAPIBaseURL clientID clientSecret scopes : string) : M (string * string) :=
  emit (Call "oauthFlow" [withingsAPIBaseURL; clientID; clientSecret; scopes]) ;;
  Printf ("Go to https://account.withings.com/oauth2_user/authorize2?response_type=code&client_id="
          ++ clientID ++ "&scope=" ++ scopes
          ++ "&state=issyl0-withings&redirect_uri=http://localhost" ++ LF) ;;
  Println "Enter the value of `code` from the returned query string:" ;;
  authCode <- fmt_Scanln w ;;
  let url := withingsAPIBaseURL
             ++ "/v2/oauth2?action=requesttoken&grant_type=authorization_code&client_id="
             ++ clientID ++ "&client_secret=" ++ clientSecret ++ "&code=" ++ authCode
             ++ "&redirect_uri=http://localhost" in
  let method := "POST" in
  let '(req, err) := http_NewRequest w method url in
  print_if err ;;
  '(res, err) <- client_Do w req ;;
  print_if err ;;
  res <- defer_Body_Close res ;;
  let body := Body res in
  let parsedRequestToken := fst (json_Unmarshal RequestToken.store body RequestToken.zero) in
  let accessToken := RequestToken.AccessToken (RequestToken.Body parsedRequestToken) in
  Printf ("To avoid reauthenticating every time, run `export WITHINGS_API_ACCESS_TOKEN="
          ++ accessToken ++ "`" ++ LF) ;;
  ret (authCode, accessToken).

Definition getWeightMeasurements (w : World)
    (withingsAPIBaseURL accessToken : string) : M float :=
  emit (Call "getWeightMeasurements" [withingsAPIBaseURL; accessToken]) ;;
  let weightMeasurementAPITypes := 1 in
  let url := withingsAPIBaseURL ++ "/measure?action=getmeas&meastypes="
             ++ fmt_d weightMeasurementAPITypes
             ++ "&category=1&lastupdate=integer" in
  let method := "POST" in
  let '(req, err) := http_NewRequest w method url in
  print_if err ;;
  req <- Header_Add req "Authorization" ("Bearer " ++ accessToken) ;;
  '(res, err) <- client_Do w req ;;
  print_if err ;;
  res <- defer_Body_Close res ;;
  let body := Body res in
  let parsedMeasures := fst (json_Unmarshal Measures.store body Measures.zero) in
  g <- index (Measures.MeasureGroups (Measures.Body parsedMeasures)) 0 ;;
  m <- index (Measures.Measures g) 0 ;;
  ret (Measures.Value m / 1000)%float.

Definition withingsAPIBaseURL : string := "https://wbsapi.withings.net".

(** Lines 62 to 77 of [main], everything after the token is known. *)
Definition publish (w : World) (accessToken : string) : M unit :=
  currentWeightMetric <-
    NewGauge "withings_current_weight"
             "Shows the latest weight measurement (assumed in kg)" ;;
  currentWeight <- getWeightMeasurements w withingsAPIBaseURL accessToken ;;
  MustRegister w currentWeightMetric ;;
  Gauge_Set currentWeightMetric currentWeight ;;
  log_Printf "Setting withings_current_weight_metric to %fkg." [currentWeight] ;;
  http_Handle "/metrics" promhttp_Handler ;;
  log_Printf "Serving metrics on http://localhost:8080/metrics. Configure your Prometheus to scrape accordingly." [] ;;
  err <- http_ListenAndServe w ":8080" ;;
  log_Fatal err.

Definition main (w : World) : M unit :=
  let accessToken := Getenv w "WITHINGS_API_ACCESS_TOKEN" in
  if String.eqb accessToken "" then
    let clientID := Getenv w "WITHINGS_APP_CLIENT_ID" in
    let clientSecret := Getenv w "WITHINGS_APP_CLIENT_SECRET" in
    if String.eqb clientID "" || String.eqb clientSecret "" then
      Println "Set your Withings API application up with `WITHINGS_APP_CLIENT_ID` and `WITHINGS_APP_CLIENT_SECRET` envvars."
    else
      let scopes := "user.info,user.metrics" in
      '(_, accessToken) <- oauthFlow w withingsAPIBaseURL clientID clientSecret scopes ;;
      publish w accessToken
  else publish w accessToken.

(** ** The second source file

    The repository holds a second program with the same [RequestToken]
    and the same [oauthFlow], whose [main] stops once the token is known. *)
Module AuthOnly.
Definition main (w : World) : M unit :=
  let accessToken := Getenv w "WITHINGS_API_ACCESS_TOKEN" in
  if String.eqb accessToken "" then
    let clientID := Getenv w "WITHINGS_APP_CLIENT_ID" in
    let clientSecret := Getenv w "WITHINGS_APP_CLIENT_SECRET" in
    if String.eqb clientID "" || String.eqb clientSecret "" then
      Println "Set your Withings API application up with `WITHINGS_APP_CLIENT_ID` and `WITHINGS_APP_CLIENT_SECRET` envvars."
    else
      let scopes := "user.info,user.metrics" in
      '(_, accessToken) <- oauthFlow w withingsAPIBaseURL clientID clientSecret scopes ;;
      ret tt
  else ret tt.
End AuthOnly.

(** ** Serving [/metrics] *)

(** A gathered metric family: one of the program's gauges, or a family of
    the library's own with the text collected for it. *)
Inductive family :=
| Own (g : Gauge)
| Builtin (name text : string).

Definition family_name (f : family) : string :=
  match f with
  | Own g => Name g
  | Builtin name _ => name
  end.

(** The value of a sample, as the text format writes it. *)
Definition writeFloat (w : World) (f : float) : string :=
  if (f =? 1)%float then "1"
  else if (f =? 0)%float then "0"
  else if (f =? -1)%float then "-1"
  else if PrimFloat.is_nan f then "NaN"
  else if (f =? infinity)%float then "+Inf"
  else if (f =? neg_infinity)%float then "-Inf"
  else FormatFloat_g w f.

(** The help text with backslash and line feed escaped. *)
Fixpoint escape_help (s : string) : string :=
  match s with
  | EmptyString => EmptyString
  | String c r =>
      if (nat_of_ascii c =? 92)%nat then String c (String c (escape_help r))
      else if (nat_of_ascii c =? 10)%nat
           then String (ascii_of_nat 92) (String "n" (escape_help r))
      else String c (escape_help r)
  end.

Definition sample_line (w : World) (g : Gauge) : string :=
  Name g ++ " " ++ writeFloat w (val g) ++ LF.

Definition family_text (w : World) (f : family) : string :=
  match f with
  | Own g =>
      "# HELP " ++ Name g ++ " " ++ escape_help (Help g) ++ LF
      ++ "# TYPE " ++ Name g ++ " gauge" ++ LF
      ++ sample_line w g
  | Builtin _ text => text
  end.

(** Families come out in the order of their names. *)
Fixpoint insert_family (f : family) (l : list family) : list family :=
  match l with
  | [] => [f]
  | g :: l' =>
      if String.leb (family_name f) (family_name g) then f :: l
      else g :: insert_family f l'
  end.

Definition sort_families (l : list family) : list family :=
  fold_right insert_family [] l.

(** The registry's [Gather] at the [n]-th scrape: the gauges are read
    from the gauge objects at that moment. *)
Definition Gather (w : World) (n : nat) (s : Proc) : list family :=
  sort_families
    (map (fun name => Builtin name (collect w n name)) (builtin w)
     ++ flat_map (fun g => match nth_error (gauges s) g with
                           | Some c => [Own c]
                           | None => []
                           end) (registry s)).

Definition exposition (w : World) (fams : list family) : string :=
  fold_right (fun f rest => family_text w f ++ rest) "" fams.

(** The server that [http.ListenAndServe] runs: the process state it
    serves from and the number of scrapes answered so far. *)
Record Server := mkServer {
  proc : Proc;
  scrapes : nat
}.

Inductive reply :=
| OK (text : string)      (* 200 with the text exposition *)
| NotServed.              (* the mux has no handler for the path *)

(** One request for [path], with no content negotiation: the mux picks
    the handler registered for exactly this path. *)
Definition ServeHTTP (w : World) (srv : Server) (path : string) : reply * Server :=
  match find (fun ph => String.eqb (fst ph) path) (mux (proc srv)) with
  | Some (_, promhttp_Handler) =>
      (OK (exposition w (Gather w (scrapes srv) (proc srv))),
       mkServer (proc srv) (S (scrapes srv)))
  | None => (NotServed, srv)
  end.

(** The serving loop over the requests that arrive. *)
Fixpoint serve (w : World) (srv : Server) (paths : list string) : list reply * Server :=
  match paths with
  | [] => ([], srv)
  | p :: paths' =>
      let '(r, srv1) := ServeHTTP w srv p in
      let '(rs, srv2) := serve w srv1 paths' in
      (r :: rs, srv2)
  end.

(** * Vocabulary of the properties *)

(** ** Runs *)

(** [after evs s]: the state [s] with the events [evs] (newest first)
    added and nothing else touched. *)
Definition after (evs : list event) (s : Proc) : Proc :=
  mkProc (evs ++ trace s) (gauges s) (registry s) (mux s).

(** The line that [if err != nil { fmt.Println(err) }] leaves. *)
Definition errline (err : option string) : list event :=
  match err with
  | Some e => [Stdout (e ++ LF)]
  | None => []
  end.

(** The requests handed to [client.Do], newest first. *)
Definition requests (t : list event) : list Request :=
  flat_map (fun e => match e with Do r => [r] | _ => [] end) t.

(** The request of the measurement query, in the words of the
    specification. *)
Definition measure_url (base : string) : string :=
  base ++ "/measure?action=getmeas&meastypes=1&category=1&lastupdate=integer".

Definition measure_request (base token : string) : Request :=
  mkRequest "POST" (measure_url base) [("Authorization", "Bearer " ++ token)].

Definition measure_call (base token : string) : event :=
  Call "getWeightMeasurements" [base; token].

(** The request of the token exchange. *)
Definition token_url (base clientID clientSecret authCode : string) : string :=
  base ++ "/v2/oauth2?action=requesttoken&grant_type=authorization_code&client_id="
       ++ clientID ++ "&client_secret=" ++ clientSecret ++ "&code=" ++ authCode
       ++ "&redirect_uri=http://localhost".

Definition token_request (base clientID clientSecret authCode : string) : Request :=
  mkRequest "POST" (token_url base clientID clientSecret authCode) [].

(** What [json.Unmarshal] leaves in the two response variables. *)
Definition parsedMeasures (body : payload) : Measures.t :=
  fst (json_Unmarshal Measures.store body Measures.zero).

Definition parsedRequestToken (body : payload) : RequestToken.t :=
  fst (json_Unmarshal RequestToken.store body RequestToken.zero).

Definition access_token (body : payload) : string :=
  RequestToken.AccessToken (RequestToken.Body (parsedRequestToken body)).

(** The expression [parsedMeasures.Body.MeasureGroups[0].Measures[0].Value / 1000]. *)
Definition first_value (p : Measures.t) : outcome float :=
  match Measures.MeasureGroups (Measures.Body p) with
  | [] => Panicked (IndexOutOfRange 0 0)
  | g :: _ =>
      match Measures.Measures g with
      | [] => Panicked (IndexOutOfRange 0 0)
      | m :: _ => Ret (Measures.Value m / 1000)%float
      end
  end.

(** What [oauthFlow] has done once the code is read from the console. *)
Definition oauth_prompt (base clientID clientSecret scopes : string) : list event :=
  [Stdin;
   Stdout ("Enter the value of `code` from the returned query string:" ++ LF);
   Stdout ("Go to https://account.withings.com/oauth2_user/authorize2?response_type=code&client_id="
           ++ clientID ++ "&scope=" ++ scopes
           ++ "&state=issyl0-withings&redirect_uri=http://localhost" ++ LF);
   Call "oauthFlow" [base; clientID; clientSecret; scopes]].

(** The closing line of [oauthFlow]. *)
Definition export_hint (accessToken : string) : event :=
  Stdout ("To avoid reauthenticating every time, run `export WITHINGS_API_ACCESS_TOKEN="
          ++ accessToken ++ "`" ++ LF).

Definition gauge_name : string := "withings_current_weight".
Definition gauge_help : string := "Shows the latest weight measurement (assumed in kg)".

(** The events of [main] between the return of [getWeightMeasurements]
    and the call of [http.ListenAndServe], newest first. *)
Definition publish_events (v : float) : list event :=
  [Log "Serving metrics on http://localhost:8080/metrics. Configure your Prometheus to scrape accordingly." [];
   Handle "/metrics";
   Log "Setting withings_current_weight_metric to %fkg." [v];
   SetGauge (0%nat) v;
   Register (0%nat)].

(** The state in which [main] is serving, when the measurement query was
    made with [token] and answered with the error [err] (if any) next to
    the response, the weight extracted was [v], and [t] is what had
    happened before the query. *)
Definition serving_state (token : string) (err : option string) (v : float)
    (t : list event) : Proc :=
  mkProc (Listen ":8080" :: publish_events v
          ++ (errline err ++ [Do (measure_request withingsAPIBaseURL token);
                              measure_call withingsAPIBaseURL token]) ++ t)
         [mkGauge gauge_name gauge_help v] [0%nat] [("/metrics", promhttp_Handler)].

Definition setup_message : string :=
  "Set your Withings API application up with `WITHINGS_APP_CLIENT_ID` and `WITHINGS_APP_CLIENT_SECRET` envvars." ++ LF.

(** ** Predicates *)

(** [WITHINGS_API_ACCESS_TOKEN] is empty and a credential is missing. *)
Definition missing_credentials (w : World) : Prop :=
  Getenv w "WITHINGS_API_ACCESS_TOKEN" = "" /\
  (Getenv w "WITHINGS_APP_CLIENT_ID" = "" \/ Getenv w "WITHINGS_APP_CLIENT_SECRET" = "").

(** What [publish] may leave in the trace when given [token]: it enters
    no function but [getWeightMeasurements], with [token]; it makes no
    request but the measurement query with [token]; it does not read the
    console. *)
Definition publish_event (token : string) (e : event) : Prop :=
  match e with
  | Call fn args => fn = "getWeightMeasurements" /\ args = [withingsAPIBaseURL; token]
  | Do req => req = measure_request withingsAPIBaseURL token
  | Stdin => False
  | _ => True
  end.

(** Events that neither write a gauge nor start the listener. *)
Definition startup_event (e : event) : Prop :=
  match e with
  | SetGauge _ _ | Listen _ => False
  | _ => True
  end.

Definition named (name : string) (f : family) : bool :=
  String.eqb (family_name f) name.

(** [name] is the key of exactly one member of the object, up to case,
    and that member's value is [v]. *)
Definition sole_member (name : string) (v : json) (ms : list (string * json)) : Prop :=
  exists pre k post,
    ms = (pre ++ (k, v) :: post)%list
    /\ EqualFold k name = true
    /\ Forall (fun m => EqualFold (fst m) name = false) (pre ++ post).

(** The parsed body holds some measurement group that has a measure. *)
Definition some_group_has_a_measure (p : Measures.t) : Prop :=
  exists g, In g (Measures.MeasureGroups (Measures.Body p)) /\ Measures.Measures g <> [].

(** C1 in its own words, for one run: if the response received holds
    some group with a measure, the value of the first measure of the first
    group, divided by 1000, is returned. *)
Definition returns_first_value_when_some_group_has_a_measure
    (w : World) (base token : string) (s : Proc) : Prop :=
  forall res err,
    RoundTrip w (measure_request base token) = (Some res, err) ->
    some_group_has_a_measure (parsedMeasures (Body res)) ->
    exists g gs m ms,
      Measures.MeasureGroups (Measures.Body (parsedMeasures (Body res))) = g :: gs
      /\ Measures.Measures g = m :: ms
      /\ fst (getWeightMeasurements w base token s) = Ret (Measures.Value m / 1000)%float.

(** An error occurs in the token exchange: [client.Do] returns it (a
    network error), or the body it delivers is not well-formed JSON (a
    parse error, with the message of [json.Unmarshal]'s error). *)
Definition oauth_error (w : World) (req : Request) (e : string) : Prop :=
  (exists res, RoundTrip w req = (res, Some e))
  \/ (exists res err, RoundTrip w req = (Some res, err) /\ Body res = NotJSON e).

(** C4 in its own words, for one run and one error [e]: the line of [e]
    is on standard output and the flow returns an empty access token. *)
Definition printed_and_swallowed (w : World)
    (base clientID clientSecret scopes e : string) : Prop :=
  In (Stdout (e ++ LF)) (trace (snd (oauthFlow w base clientID clientSecret scopes boot)))
  /\ fst (oauthFlow w base clientID clientSecret scopes boot) = Ret (Scanln w, "").

(** ** Mock documents and worlds *)

(** A number literal that reads as [f] and, as an integer, as [z]. *)
Definition lit (f : float) (z : Z) : json := JNumber (Num (Some f) (Some z)).

(** The mock measurement response of the specification,
    [{"body":{"measuregrps":[{"measures":[{"value":75000}]}]}}]. *)
Definition mock_measures : json :=
  JObject [("body", JObject [("measuregrps",
    JArray [JObject [("measures",
      JArray [JObject [("value", lit 75000 75000)]])]])])].

(** A second measurement response: another status, type codes, dates, a
    second measure and a second group, but the same first value,
    [{"status":401,"body":{"measuregrps":[{"date":1,"created":2,
    "measures":[{"value":75000,"type":1},{"value":1,"type":6}]},
    {"measures":[]}]}}]. *)
Definition mock_measures' : json :=
  JObject [("status", lit 401 401);
           ("body", JObject [("measuregrps", JArray [
              JObject [("date", lit 1 1); ("created", lit 2 2);
                       ("measures", JArray [
                          JObject [("value", lit 75000 75000); ("type", lit 1 1)];
                          JObject [("value", lit 1 1); ("type", lit 6 6)]])];
              JObject [("measures", JArray [])]])])].

(** A response whose first group has no measure and whose second has one,
    [{"body":{"measuregrps":[{"measures":[]},{"measures":[{"value":75000}]}]}}]. *)
Definition measures_after_an_empty_group : json :=
  JObject [("body", JObject [("measuregrps", JArray [
              JObject [("measures", JArray [])];
              JObject [("measures", JArray [JObject [("value", lit 75000 75000)]])]])])].

(** A token response with the given access token,
    [{"status":0,"body":{"access_token":<token>,"expires_in":10800}}];
    the number under [expires_in] does not fit the string field, so
    [json.Unmarshal] reports a type error for it. *)
Definition token_response (token : string) : json :=
  JObject [("status", lit 0 0);
           ("body", JObject [("access_token", JString token);
                             ("expires_in", lit 10800 10800)])].

Definition mock_env (preset : string) (key : string) : string :=
  if String.eqb key "WITHINGS_API_ACCESS_TOKEN" then preset
  else if String.eqb key "WITHINGS_APP_CLIENT_ID" then "id"
  else if String.eqb key "WITHINGS_APP_CLIENT_SECRET" then "secret"
  else "".

Definition mock_transport (token measures : payload) (req : Request)
  : option Response * option string :=
  if String.prefix "https://wbsapi.withings.net/v2/oauth2?" (URL req)
  then (Some (mkResponse 200 token), None)
  else (Some (mkResponse 200 measures), None).

Definition mock_format (f : float) : string :=
  if (f =? 75)%float then "75" else "?".

(** The mock world: [preset] is the value of [WITHINGS_API_ACCESS_TOKEN],
    both credentials are set, the code [c0de] is typed at the console, every
    URL is accepted, the token endpoint answers [token] and the
    measurement endpoint [measures], two families are builtin, the port
    is free. *)
Definition mock (preset : string) (token measures : payload) : World :=
  mkWorld (mock_env preset) "c0de" (fun _ => None)
          (mock_transport token measures)
          ["go_goroutines"; "process_cpu_seconds_total"]
          (fun _ name => "# TYPE " ++ name ++ " untyped" ++ LF ++ name ++ " 1" ++ LF)
          mock_format None.

Definition mock_preset_world : World :=
  mock "abc" (Doc (token_response "t0ken")) (Doc mock_measures).

Definition mock_oauth_world : World :=
  mock "" (Doc (token_response "t0ken")) (Doc mock_measures).

(** The token endpoint answers with a page that is not JSON. *)
Definition world_with_html_answer : World :=
  mock "" (NotJSON "invalid character '<' looking for beginning of value") (Doc mock_measures).

(** The measurement endpoint answers with an empty body. *)
Definition world_with_empty_answer : World :=
  mock "abc" (Doc (token_response "t0ken")) (NotJSON "unexpected end of JSON input").

(** The measurement endpoint answers [measures_after_an_empty_group]. *)
Definition world_with_empty_first_group : World :=
  mock "abc" (Doc (token_response "t0ken")) (Doc measures_after_an_empty_group).

(** The connection fails: [client.Do] returns no response. *)
Definition world_without_network : World :=
  mkWorld (mock_env "") "c0de" (fun _ => None)
          (fun _ => (None, Some "dial tcp: connection refused"))
          [] (fun _ _ => "") mock_format None.

(** Nothing is set in the environment. *)
Definition world_without_credentials : World :=
  mkWorld (fun _ => "") "" (fun _ => None) (fun _ => (None, Some "no network"))
          [] (fun _ _ => "") mock_format None.

(** ** Vocabulary of the further properties *)

(** The requests handed to [client.Do], in the order they were made. *)
Definition history_requests (s : Proc) : list Request := rev (requests (trace s)).



(** A request that is a POST to the Withings API host. *)
Definition withings_post (req : Request) : Prop :=
  Method req = "POST"
  /\ String.prefix "https://wbsapi.withings.net/" (URL req) = true.

Definition only_withings_posts (e : event) : Prop :=
  match e with
  | Do req => withings_post req
  | _ => True
  end.


(** No member of the object has a key that reads as [name]. *)
Definition no_member (name : string) (ms : list (string * json)) : Prop :=
  Forall (fun m => EqualFold (fst m) name = false) ms.

(** The first measure of a document carries no usable value: the object
    has no [value] member, or its only one is not a number. *)
Definition without_numeric_value (mm : list (string * json)) : Prop :=
  no_member "value" mm
  \/ exists v, sole_member "value" v mm /\ forall n, v <> JNumber n.

(** A token document that carries no usable token: it has no [body]
    member, or its only [body] is an object that has no [access_token]
    member or whose only one is not a string. *)
Definition without_string_token (top : list (string * json)) : Prop :=
  no_member "body" top
  \/ exists bm,
       sole_member "body" (JObject bm) top
       /\ (no_member "access_token" bm
           \/ exists v, sole_member "access_token" v bm /\ forall t, v <> JString t).

(** The answer of the API to a bad code, [{"status":503,"error":"Invalid Params"}]. *)
Definition token_refusal : json :=
  JObject [("status", lit 503 503); ("error", JString "Invalid Params")].

Definition world_with_refused_code : World :=
  mock "" (Doc token_refusal) (Doc mock_measures).

(** Two answers of the transport that differ at most in the status code
    of the response. *)
Definition same_but_status (a b : option Response * option string) : Prop :=
  snd a = snd b /\ option_map Body (fst a) = option_map Body (fst b).

(** Two worlds in which the program is told the same things, except for
    the status codes of the responses (the text collected at a scrape and
    the digits of a float do not reach [main]). *)
Definition differ_in_status_only (w1 w2 : World) : Prop :=
  (forall key, Getenv w1 key = Getenv w2 key)
  /\ Scanln w1 = Scanln w2
  /\ (forall url, url_Parse w1 url = url_Parse w2 url)
  /\ (forall req, same_but_status (RoundTrip w1 req) (RoundTrip w2 req))
  /\ builtin w1 = builtin w2
  /\ bind_error w1 = bind_error w2.

(** A first measure whose value is a string,
    [{"body":{"measuregrps":[{"measures":[{"value":"75000"}]}]}}]. *)
Definition measures_with_string_value : json :=
  JObject [("body", JObject [("measuregrps",
    JArray [JObject [("measures", JArray [JObject [("value", JString "75000")]])]])])].

Definition world_with_string_value : World :=
  mock "abc" (Doc (token_response "t0ken")) (Doc measures_with_string_value).

(** [net/url] rejects every URL. *)
Definition world_rejecting_urls : World :=
  mkWorld (mock_env "") "c0de"
          (fun _ => Some "net/url: invalid control character in URL")
          (mock_transport (Doc (token_response "t0ken")) (Doc mock_measures))
          [] (fun _ _ => "") mock_format None.


(** The mock world in which every response has status 500. *)
Definition with_status (code : Z) (a : option Response * option string)
  : option Response * option string :=
  (option_map (fun r => mkResponse code (Body r)) (fst a), snd a).

Definition mock_oauth_world_500 : World :=
  mkWorld (mock_env "") "c0de" (fun _ => None)
          (fun req => with_status 500
                        (mock_transport (Doc (token_response "t0ken")) (Doc mock_measures) req))
          ["go_goroutines"; "process_cpu_seconds_total"]
          (fun _ _ => "") mock_format None.

(** * Properties *)

(** ** What a run of each function looks like *)

Lemma getWeightMeasurements_run (w : World) (base token : string) (s : Proc) :
  getWeightMeasurements w base token s =
  match url_Parse w (measure_url base) with
  | Some e =>
      (Panicked NilDereference, after [Stdout (e ++ LF); measure_call base token] s)
  | None =>
      match RoundTrip w (measure_request base token) with
      | (None, err) =>
          (Panicked NilDereference,
           after (errline err ++ [Do (measure_request base token); measure_call base token]) s)
      | (Some res, err) =>
          (first_value (parsedMeasures (Body res)),
           after (errline err ++ [Do (measure_request base token); measure_call base token]) s)
      end
  end.
Proof.
  unfold getWeightMeasurements, http_NewRequest, measure_request, measure_url.
  change (fmt_d 1) with "1".
  change ("/measure?action=getmeas&meastypes=" ++ "1" ++ "&category=1&lastupdate=integer")
    with "/measure?action=getmeas&meastypes=1&category=1&lastupdate=integer".
  destruct (url_Parse w _) as [e|]; [reflexivity|].
  cbn [bind emit print_if ret Header_Add client_Do Method URL Header app].
  destruct (RoundTrip w _) as [[res|] [e|]]; cbn; try reflexivity;
    unfold first_value, parsedMeasures;
    destruct (Measures.MeasureGroups _) as [|g gs]; cbn; try reflexivity;
    destruct (Measures.Measures g) as [|m ms]; reflexivity.
Qed.

Lemma bind_run {A B} (m : M A) (k : A -> M B) (s : Proc) :
  bind m k s =
  match m s with
  | (Ret a, s') => k a s'
  | (Panicked p, s') => (Panicked p, s')
  | (Exited c, s') => (Exited c, s')
  | (Serving, s') => (Serving, s')
  end.
Proof. reflexivity. Qed.

Lemma oauthFlow_run (w : World) (base clientID clientSecret scopes : string) (s : Proc) :
  oauthFlow w base clientID clientSecret scopes s =
  let req := token_request base clientID clientSecret (Scanln w) in
  let prompt := oauth_prompt base clientID clientSecret scopes in
  match url_Parse w (URL req) with
  | Some e => (Panicked NilDereference, after (Stdout (e ++ LF) :: prompt) s)
  | None =>
      match RoundTrip w req with
      | (None, err) =>
          (Panicked NilDereference, after (errline err ++ Do req :: prompt) s)
      | (Some res, err) =>
          (Ret (Scanln w, access_token (Body res)),
           after (export_hint (access_token (Body res)) :: errline err ++ Do req :: prompt) s)
      end
  end.
Proof.
  unfold oauthFlow, http_NewRequest, token_request, token_url.
  cbn [bind emit Println Printf fmt_Scanln ret URL].
  destruct (url_Parse w _) as [e|]; [reflexivity|].
  cbn [bind emit print_if ret client_Do].
  destruct (RoundTrip w _) as [[res|] [e|]]; reflexivity.
Qed.

(** [publish] from a state that holds no gauge, no registration and no
    route yet, as at the start of [main] and after [oauthFlow]. *)
Lemma publish_run (w : World) (token : string) (t : list event) :
  publish w token (mkProc t [] [] []) =
  let s0 := mkProc t [mkGauge gauge_name gauge_help 0%float] [] [] in
  match getWeightMeasurements w withingsAPIBaseURL token s0 with
  | (Ret v, s1) =>
      if existsb (String.eqb gauge_name) (builtin w)
      then (Panicked (AlreadyRegistered gauge_name), s1)
      else
        let gs := [mkGauge gauge_name gauge_help v] in
        let rt := [("/metrics", promhttp_Handler)] in
        match bind_error w with
        | Some err =>
            (Exited 1, mkProc (Log err [] :: publish_events v ++ trace s1) gs [0%nat] rt)
        | None =>
            (Serving, mkProc (Listen ":8080" :: publish_events v ++ trace s1) gs [0%nat] rt)
        end
  | (Panicked p, s1) => (Panicked p, s1)
  | (Exited c, s1) => (Exited c, s1)
  | (Serving, s1) => (Serving, s1)
  end.
Proof.
  unfold publish.
  rewrite bind_run. unfold NewGauge at 1, with_gauges.
  cbn [gauges trace registry mux List.length app].
  fold gauge_name gauge_help.
  rewrite bind_run, getWeightMeasurements_run.
  destruct (url_Parse w _) as [e|]; [reflexivity|].
  destruct (RoundTrip w _) as [[res|] err]; [|reflexivity].
  destruct (first_value _) as [v| | |]; try reflexivity.
  rewrite bind_run. unfold MustRegister at 1, registered_names, after.
  cbn [gauges registry nth_error flat_map Name].
  rewrite app_nil_r.
  destruct (existsb _ (builtin w)); [reflexivity|].
  unfold bind, http_ListenAndServe, log_Fatal.
  destruct (bind_error w); reflexivity.
Qed.

Lemma eqb_empty (x : string) : String.eqb x "" = is_empty x.
Proof. destruct x; reflexivity. Qed.

Lemma is_empty_true (x : string) : is_empty x = true <-> x = "".
Proof. destruct x; split; (reflexivity || discriminate). Qed.

Lemma main_run (w : World) :
  main w boot =
  let token := Getenv w "WITHINGS_API_ACCESS_TOKEN" in
  let clientID := Getenv w "WITHINGS_APP_CLIENT_ID" in
  let clientSecret := Getenv w "WITHINGS_APP_CLIENT_SECRET" in
  if is_empty token then
    if is_empty clientID || is_empty clientSecret
    then (Ret tt, mkProc [Stdout setup_message] [] [] [])
    else
      match oauthFlow w withingsAPIBaseURL clientID clientSecret "user.info,user.metrics" boot with
      | (Ret (_, accessToken), s) => publish w accessToken s
      | (Panicked p, s) => (Panicked p, s)
      | (Exited c, s) => (Exited c, s)
      | (Serving, s) => (Serving, s)
      end
  else publish w token boot.
Proof.
  unfold main. rewrite !eqb_empty. cbv zeta.
  destruct (is_empty (Getenv w "WITHINGS_API_ACCESS_TOKEN")); [|reflexivity].
  destruct (is_empty (Getenv w "WITHINGS_APP_CLIENT_ID") || is_empty (Getenv w "WITHINGS_APP_CLIENT_SECRET"));
    [reflexivity|].
  rewrite bind_run.
  destruct (oauthFlow _ _ _ _ _ _) as [[[c a]| | |] s]; reflexivity.
Qed.

Lemma requests_app (t u : list event) : requests (t ++ u) = (requests t ++ requests u)%list.
Proof. apply flat_map_app. Qed.

Lemma requests_errline (err : option string) : requests (errline err) = [].
Proof. destruct err; reflexivity. Qed.

(** [publish] never comes back to its caller. *)
Lemma publish_no_return (w : World) (token : string) (t : list event) :
  fst (publish w token (mkProc t [] [] [])) <> Ret tt.
Proof.
  rewrite publish_run. cbv zeta. rewrite getWeightMeasurements_run.
  destruct (url_Parse w _); [discriminate|].
  destruct (RoundTrip w _) as [[res|] err]; [|discriminate].
  destruct (first_value _); try discriminate.
  destruct (existsb _ _); [discriminate|].
  destruct (bind_error w); discriminate.
Qed.

(** ** Documents and the fields they fill *)

Lemma EqualFold_other (key name other : string) :
  EqualFold key name = true ->
  foldName name <> foldName other ->
  EqualFold key other = false.
Proof.
  unfold EqualFold. intros Hhit Hne.
  apply String.eqb_eq in Hhit. apply String.eqb_neq. congruence.
Qed.

Section Projection.
Context {T F : Type}.
Variable proj : T -> F.
Variable field : string -> json -> T -> stored T.
Variable name : string.
Variable st : json -> F -> stored F.
Hypothesis field_miss :
  forall k v r, EqualFold k name = false -> proj (fst (field k v r)) = proj r.
Hypothesis field_hit :
  forall k v r, EqualFold k name = true -> proj (fst (field k v r)) = fst (st v (proj r)).

Lemma store_members_cons (k : string) (v : json) (ms : list (string * json)) (r : T) :
  fst (store_members field ((k, v) :: ms) r)
  = fst (store_members field ms (fst (field k v r))).
Proof.
  cbn [store_members]. destruct (field k v r) as [r1 e1]. cbn [fst].
  now destruct (store_members field ms r1).
Qed.

Lemma store_members_miss (ms : list (string * json)) :
  Forall (fun m => EqualFold (fst m) name = false) ms ->
  forall r, proj (fst (store_members field ms r)) = proj r.
Proof.
  induction 1 as [|[k v] ms Hk _ IH]; intros r; [reflexivity|].
  rewrite store_members_cons, IH. now apply field_miss.
Qed.

Lemma store_members_sole (v : json) (ms : list (string * json)) (r : T) :
  sole_member name v ms ->
  proj (fst (store_members field ms r)) = fst (st v (proj r)).
Proof.
  intros (pre & k & post & -> & Hk & Hrest).
  apply Forall_app in Hrest. destruct Hrest as [Hpre Hpost].
  revert r. induction Hpre as [|[k0 v0] pre Hk0 _ IH]; intros r; cbn [app].
  - rewrite store_members_cons, store_members_miss by exact Hpost.
    now apply field_hit.
  - rewrite store_members_cons, IH. f_equal. f_equal. now apply field_miss.
Qed.
End Projection.

Ltac fold_miss key :=
  match goal with
  | H : EqualFold ?k key = true |- context [EqualFold ?k ?other] =>
      rewrite (EqualFold_other k key other H) by (vm_compute; discriminate)
  end.

Ltac split_store :=
  repeat match goal with
         | |- context [let '(_, _) := ?x in _] => destruct x
         end;
  cbn.

Lemma Measures_body_miss (k : string) (v : json) (r : Measures.t) :
  EqualFold k "body" = false ->
  Measures.Body (fst (Measures.field k v r)) = Measures.Body r.
Proof.
  intros H. unfold Measures.field. rewrite H.
  destruct (EqualFold k "status"); split_store; reflexivity.
Qed.

Lemma Measures_body_hit (k : string) (v : json) (r : Measures.t) :
  EqualFold k "body" = true ->
  Measures.Body (fst (Measures.field k v r))
  = fst (store_struct "struct" Measures.Body_field v (Measures.Body r)).
Proof.
  intros H. unfold Measures.field. fold_miss "body". rewrite H.
  split_store; reflexivity.
Qed.

Lemma Measures_groups_miss (k : string) (v : json) (b : Measures.body) :
  EqualFold k "measuregrps" = false ->
  Measures.MeasureGroups (fst (Measures.Body_field k v b)) = Measures.MeasureGroups b.
Proof. intros H. unfold Measures.Body_field. now rewrite H. Qed.

Lemma Measures_groups_hit (k : string) (v : json) (b : Measures.body) :
  EqualFold k "measuregrps" = true ->
  Measures.MeasureGroups (fst (Measures.Body_field k v b))
  = fst (store_slice "[]struct" (store_struct "struct" Measures.Group_field)
           Measures.zeroGroup v (Measures.MeasureGroups b)).
Proof.
  intros H. unfold Measures.Body_field. rewrite H. split_store; reflexivity.
Qed.

Lemma Measures_measures_miss (k : string) (v : json) (g : Measures.Group) :
  EqualFold k "Measures" = false ->
  Measures.Measures (fst (Measures.Group_field k v g)) = Measures.Measures g.
Proof.
  intros H. unfold Measures.Group_field. rewrite H.
  destruct (EqualFold k "date"); [split_store; reflexivity|].
  destruct (EqualFold k "created"); split_store; reflexivity.
Qed.

Lemma Measures_measures_hit (k : string) (v : json) (g : Measures.Group) :
  EqualFold k "Measures" = true ->
  Measures.Measures (fst (Measures.Group_field k v g))
  = fst (store_slice "[]struct" (store_struct "struct" Measures.Measure_field)
           Measures.zeroMeasure v (Measures.Measures g)).
Proof.
  intros H. unfold Measures.Group_field.
  fold_miss "Measures". fold_miss "Measures". rewrite H.
  split_store; reflexivity.
Qed.

Lemma Measures_value_miss (k : string) (v : json) (m : Measures.Measure) :
  EqualFold k "value" = false ->
  Measures.Value (fst (Measures.Measure_field k v m)) = Measures.Value m.
Proof.
  intros H. unfold Measures.Measure_field. rewrite H.
  destruct (EqualFold k "type"); split_store; reflexivity.
Qed.

Lemma Measures_value_hit (k : string) (v : json) (m : Measures.Measure) :
  EqualFold k "value" = true ->
  Measures.Value (fst (Measures.Measure_field k v m))
  = fst (store_float64 v (Measures.Value m)).
Proof.
  intros H. unfold Measures.Measure_field. rewrite H. split_store; reflexivity.
Qed.

Lemma store_elems_first {T} (elem : json -> T -> stored T) (zero : T)
    (e : json) (es : list json) (cur : list T) :
  exists xs, fst (store_elems elem zero (e :: es) cur) = fst (elem e (hd zero cur)) :: xs.
Proof.
  cbn [store_elems]. destruct (elem e (hd zero cur)) as [x e1].
  destruct (store_elems elem zero es (tl cur)) as [xs e2]. now exists xs.
Qed.

(** The value that a measurement document puts first: the [body] member
    is an object, its [measuregrps] member an array that starts with an
    object, whose [Measures] member is an array that starts with an
    object, whose [value] member is a number that reads as [f]; each key
    taken up to case and occurring once. *)
Lemma first_value_of_document (top bm gm mm : list (string * json))
    (gs ms : list json) (n : number) (f : float) :
  sole_member "body" (JObject bm) top ->
  sole_member "measuregrps" (JArray (JObject gm :: gs)) bm ->
  sole_member "Measures" (JArray (JObject mm :: ms)) gm ->
  sole_member "value" (JNumber n) mm ->
  as_float64 n = Some f ->
  first_value (parsedMeasures (Doc (JObject top))) = Ret (f / 1000)%float.
Proof.
  intros Hbody Hgroups Hmeasures Hvalue Hf.
  unfold first_value, parsedMeasures, json_Unmarshal, Measures.store.
  cbn [store_struct].
  destruct (store_members Measures.field top Measures.zero) as [r errs] eqn:Hr.
  cbn [fst].
  assert (Hb : Measures.Body r
               = fst (store_members Measures.Body_field bm (Measures.mkBody []))).
  { change r with (fst (r, errs)). rewrite <- Hr.
    now rewrite (store_members_sole Measures.Body Measures.field "body" _
                   Measures_body_miss Measures_body_hit _ _ _ Hbody). }
  rewrite Hb.
  rewrite (store_members_sole Measures.MeasureGroups Measures.Body_field "measuregrps" _
             Measures_groups_miss Measures_groups_hit _ _ _ Hgroups).
  cbn [store_slice Measures.MeasureGroups].
  destruct (store_elems_first (store_struct "struct" Measures.Group_field)
              Measures.zeroGroup (JObject gm) gs []) as [xs ->].
  cbn [store_struct hd].
  rewrite (store_members_sole Measures.Measures Measures.Group_field "Measures" _
             Measures_measures_miss Measures_measures_hit _ _ _ Hmeasures).
  cbn [store_slice Measures.Measures Measures.zeroGroup].
  destruct (store_elems_first (store_struct "struct" Measures.Measure_field)
              Measures.zeroMeasure (JObject mm) ms []) as [ys ->].
  cbn [store_struct hd].
  rewrite (store_members_sole Measures.Value Measures.Measure_field "value" _
             Measures_value_miss Measures_value_hit _ _ _ Hvalue).
  cbn [store_float64]. rewrite Hf. reflexivity.
Qed.

Lemma RequestToken_body_miss (k : string) (v : json) (r : RequestToken.t) :
  EqualFold k "body" = false ->
  RequestToken.Body (fst (RequestToken.field k v r)) = RequestToken.Body r.
Proof.
  intros H. unfold RequestToken.field. rewrite H.
  destruct (EqualFold k "status"); [split_store; reflexivity|].
  destruct (EqualFold k "error"); split_store; reflexivity.
Qed.

Lemma RequestToken_body_hit (k : string) (v : json) (r : RequestToken.t) :
  EqualFold k "body" = true ->
  RequestToken.Body (fst (RequestToken.field k v r))
  = fst (store_struct "struct" RequestToken.Body_field v (RequestToken.Body r)).
Proof.
  intros H. unfold RequestToken.field.
  fold_miss "body". fold_miss "body". rewrite H.
  split_store; reflexivity.
Qed.

Lemma RequestToken_token_miss (k : string) (v : json) (b : RequestToken.body) :
  EqualFold k "access_token" = false ->
  RequestToken.AccessToken (fst (RequestToken.Body_field k v b)) = RequestToken.AccessToken b.
Proof.
  intros H. unfold RequestToken.Body_field. rewrite H.
  destruct (EqualFold k "refresh_token"); [split_store; reflexivity|].
  destruct (EqualFold k "scope"); [split_store; reflexivity|].
  destruct (EqualFold k "expires_in"); [split_store; reflexivity|].
  destruct (EqualFold k "token_type"); split_store; reflexivity.
Qed.

Lemma RequestToken_token_hit (k : string) (v : json) (b : RequestToken.body) :
  EqualFold k "access_token" = true ->
  RequestToken.AccessToken (fst (RequestToken.Body_field k v b))
  = fst (store_string v (RequestToken.AccessToken b)).
Proof.
  intros H. unfold RequestToken.Body_field. rewrite H. split_store; reflexivity.
Qed.

(** The token that a token document carries: the [body] member is an
    object whose [access_token] member is the string [token]; each key
    taken up to case and occurring once. *)
Lemma access_token_of_document (top bm : list (string * json)) (token : string) :
  sole_member "body" (JObject bm) top ->
  sole_member "access_token" (JString token) bm ->
  access_token (Doc (JObject top)) = token.
Proof.
  intros Hbody Htoken.
  unfold access_token, parsedRequestToken, json_Unmarshal, RequestToken.store.
  cbn [store_struct].
  destruct (store_members RequestToken.field top RequestToken.zero) as [r errs] eqn:Hr.
  cbn [fst].
  assert (Hb : RequestToken.Body r
               = fst (store_members RequestToken.Body_field bm RequestToken.zeroBody)).
  { change r with (fst (r, errs)). rewrite <- Hr.
    now rewrite (store_members_sole RequestToken.Body RequestToken.field "body" _
                   RequestToken_body_miss RequestToken_body_hit _ _ _ Hbody). }
  rewrite Hb.
  now rewrite (store_members_sole RequestToken.AccessToken RequestToken.Body_field
                 "access_token" _ RequestToken_token_miss RequestToken_token_hit
                 _ _ _ Htoken).
Qed.

Lemma sole_member_here (name key : string) (v : json) (post : list (string * json)) :
  EqualFold key name = true ->
  Forall (fun m => EqualFold (fst m) name = false) post ->
  sole_member name v ((key, v) :: post).
Proof. intros Hk Hpost. now exists [], key, post. Qed.

Lemma mock_first_value : first_value (parsedMeasures (Doc mock_measures)) = Ret 75%float.
Proof. vm_compute. reflexivity. Qed.

(** ** The measurement query *)

(** C1 as stated fails: when the first group has no measure and a later
    one has, the response holds a group with a measure, yet
    [MeasureGroups[0].Measures[0]] is out of range and nothing is
    returned. *)
Lemma C1_counterexample :
  ~ returns_first_value_when_some_group_has_a_measure
      world_with_empty_first_group withingsAPIBaseURL "abc" boot.
Proof.
  intros H.
  destruct (H (mkResponse 200 (Doc measures_after_an_empty_group)) None eq_refl)
    as (g & gs & m & ms & _ & _ & Hret).
  - eexists. split; [right; left; reflexivity|]. discriminate.
  - vm_compute in Hret. discriminate Hret.
Qed.

(** C1, amended. When the response is received and the first measurement
    group of its parsed body has a measure, [getWeightMeasurements]
    returns the value of the first measure of the first group divided by
    1000; for the mock response [mock_measures] (value 75000) the result
    is 75.0. *)
Theorem C1_weight_is_first_value_over_1000 :
  forall (w : World) (base token : string) (s : Proc)
         (res : Response) (err : option string),
    url_Parse w (measure_url base) = None ->
    RoundTrip w (measure_request base token) = (Some res, err) ->
    (forall g gs m ms,
        Measures.MeasureGroups (Measures.Body (parsedMeasures (Body res))) = g :: gs ->
        Measures.Measures g = m :: ms ->
        fst (getWeightMeasurements w base token s) = Ret (Measures.Value m / 1000)%float)
    /\ (Body res = Doc mock_measures ->
        fst (getWeightMeasurements w base token s) = Ret 75%float).
Proof.
  intros w base token s res err Hurl Hdo.
  rewrite getWeightMeasurements_run, Hurl, Hdo. cbn [fst].
  split.
  - intros g gs m ms Hg Hm. unfold first_value. now rewrite Hg, Hm.
  - intros ->. apply mock_first_value.
Qed.

Lemma C1_mock_response_gives_75 :
  fst (getWeightMeasurements mock_preset_world withingsAPIBaseURL "abc" boot) = Ret 75%float.
Proof.
  refine (proj2 (C1_weight_is_first_value_over_1000
                   mock_preset_world withingsAPIBaseURL "abc" boot
                   (mkResponse 200 (Doc mock_measures)) None eq_refl eq_refl) eq_refl).
Defined.

(** C2. When the response is received and its parsed body has no
    measurement group, which is the case for every body that is not
    well-formed JSON, [MeasureGroups[0]] has no value and
    [getWeightMeasurements] panics with an index out of range. *)
Theorem C2_empty_groups_index_out_of_range :
  forall (w : World) (base token : string) (s : Proc)
         (res : Response) (err : option string),
    url_Parse w (measure_url base) = None ->
    RoundTrip w (measure_request base token) = (Some res, err) ->
    (forall msg, Body res = NotJSON msg ->
        Measures.MeasureGroups (Measures.Body (parsedMeasures (Body res))) = [])
    /\ (Measures.MeasureGroups (Measures.Body (parsedMeasures (Body res))) = [] ->
        nth_error (Measures.MeasureGroups (Measures.Body (parsedMeasures (Body res)))) 0 = None
        /\ fst (getWeightMeasurements w base token s) = Panicked (IndexOutOfRange 0 0)).
Proof.
  intros w base token s res err Hurl Hdo.
  rewrite getWeightMeasurements_run, Hurl, Hdo. cbn [fst].
  split.
  - intros msg ->. reflexivity.
  - intros H. unfold first_value. rewrite H. split; reflexivity.
Qed.

Lemma C2_not_json_panics :
  fst (getWeightMeasurements world_with_empty_answer
         withingsAPIBaseURL "abc" boot) = Panicked (IndexOutOfRange 0 0).
Proof.
  apply (proj2 (C2_empty_groups_index_out_of_range
                  world_with_empty_answer
                  withingsAPIBaseURL "abc" boot
                  (mkResponse 200 (NotJSON "unexpected end of JSON input")) None
                  eq_refl eq_refl)).
  reflexivity.
Defined.

(** X1. When [client.Do] returns no response for the measurement query
    (a network error), [getWeightMeasurements] prints the error, if one
    came with it, and then panics on [res.Body] with a nil dereference;
    nothing is parsed and nothing is returned. *)
Theorem X1_measurement_query_without_response_panics :
  forall (w : World) (base token : string) (s : Proc) (err : option string),
    url_Parse w (measure_url base) = None ->
    RoundTrip w (measure_request base token) = (None, err) ->
    getWeightMeasurements w base token s
    = (Panicked NilDereference,
       after (errline err ++ [Do (measure_request base token); measure_call base token]) s).
Proof.
  intros w base token s err Hurl Hdo.
  now rewrite getWeightMeasurements_run, Hurl, Hdo.
Qed.

Lemma X1_no_network_run :
  fst (getWeightMeasurements world_without_network withingsAPIBaseURL "abc" boot)
  = Panicked NilDereference.
Proof.
  exact (f_equal fst
           (X1_measurement_query_without_response_panics world_without_network
              withingsAPIBaseURL "abc" boot (Some "dial tcp: connection refused")
              eq_refl eq_refl)).
Defined.

(** X2. When the first measurement group of the parsed body has no
    measure, [Measures[0]] is out of range and [getWeightMeasurements]
    panics, whatever the later groups hold. *)
Theorem X2_first_group_without_measure_panics :
  forall (w : World) (base token : string) (s : Proc)
         (res : Response) (err : option string)
         (g : Measures.Group) (gs : list Measures.Group),
    url_Parse w (measure_url base) = None ->
    RoundTrip w (measure_request base token) = (Some res, err) ->
    Measures.MeasureGroups (Measures.Body (parsedMeasures (Body res))) = g :: gs ->
    Measures.Measures g = [] ->
    fst (getWeightMeasurements w base token s) = Panicked (IndexOutOfRange 0 0).
Proof.
  intros w base token s res err g gs Hurl Hdo Hg Hm.
  rewrite getWeightMeasurements_run, Hurl, Hdo. cbn [fst].
  unfold first_value. now rewrite Hg, Hm.
Qed.

Lemma X2_empty_first_group_run :
  fst (getWeightMeasurements world_with_empty_first_group withingsAPIBaseURL "abc" boot)
  = Panicked (IndexOutOfRange 0 0).
Proof.
  exact (X2_first_group_without_measure_panics world_with_empty_first_group
           withingsAPIBaseURL "abc" boot
           (mkResponse 200 (Doc measures_after_an_empty_group)) None
           (Measures.mkGroup 0 0 [])
           [Measures.mkGroup 0 0 [Measures.mkMeasure 75000%float 0]]
           eq_refl eq_refl eq_refl eq_refl).
Defined.

(** X4. For every measurement response that is a JSON object in which,
    with keys taken up to case and occurring once, [body] is an object,
    its [measuregrps] an array starting with an object, that object's
    [Measures] an array starting with an object, and that object's [value]
    a number reading as the float [f], [getWeightMeasurements] returns
    [f / 1000], whatever other members, groups and measures there are. *)
Theorem X4_weight_read_from_the_document :
  forall (w : World) (base token : string) (s : Proc)
         (res : Response) (err : option string)
         (top bm gm mm : list (string * json)) (gs ms : list json)
         (n : number) (f : float),
    url_Parse w (measure_url base) = None ->
    RoundTrip w (measure_request base token) = (Some res, err) ->
    Body res = Doc (JObject top) ->
    sole_member "body" (JObject bm) top ->
    sole_member "measuregrps" (JArray (JObject gm :: gs)) bm ->
    sole_member "Measures" (JArray (JObject mm :: ms)) gm ->
    sole_member "value" (JNumber n) mm ->
    as_float64 n = Some f ->
    fst (getWeightMeasurements w base token s) = Ret (f / 1000)%float.
Proof.
  intros w base token s res err top bm gm mm gs ms n f
         Hurl Hdo Hdoc Hbody Hgroups Hmeasures Hvalue Hf.
  rewrite getWeightMeasurements_run, Hurl, Hdo, Hdoc. cbn [fst].
  eapply first_value_of_document; eassumption.
Qed.

Lemma X4_mock_document_run :
  fst (getWeightMeasurements mock_preset_world withingsAPIBaseURL "abc" boot)
  = Ret (75000 / 1000)%float.
Proof.
  refine (X4_weight_read_from_the_document mock_preset_world withingsAPIBaseURL "abc" boot
            (mkResponse 200 (Doc mock_measures)) None
            _ _ _ _ [] [] (Num (Some 75000%float) (Some 75000)) 75000%float
            eq_refl eq_refl eq_refl _ _ _ _ eq_refl);
    apply sole_member_here; (reflexivity || constructor).
Defined.

(** C9. The weight that [getWeightMeasurements] returns is a function of
    the value of the first measure of the first group alone: two runs, in
    any two worlds and with any two responses, whose parsed bodies agree
    on that field return the same weight, whatever the status, the type
    codes, the timestamps and the further groups and measures are. *)
Theorem C9_weight_depends_only_on_first_value :
  forall (w1 w2 : World) (base1 base2 token1 token2 : string) (s1 s2 : Proc)
         (res1 res2 : Response) (err1 err2 : option string)
         (g1 g2 : Measures.Group) (gs1 gs2 : list Measures.Group)
         (m1 m2 : Measures.Measure) (ms1 ms2 : list Measures.Measure),
    url_Parse w1 (measure_url base1) = None ->
    url_Parse w2 (measure_url base2) = None ->
    RoundTrip w1 (measure_request base1 token1) = (Some res1, err1) ->
    RoundTrip w2 (measure_request base2 token2) = (Some res2, err2) ->
    Measures.MeasureGroups (Measures.Body (parsedMeasures (Body res1))) = g1 :: gs1 ->
    Measures.MeasureGroups (Measures.Body (parsedMeasures (Body res2))) = g2 :: gs2 ->
    Measures.Measures g1 = m1 :: ms1 ->
    Measures.Measures g2 = m2 :: ms2 ->
    Measures.Value m1 = Measures.Value m2 ->
    fst (getWeightMeasurements w1 base1 token1 s1)
    = fst (getWeightMeasurements w2 base2 token2 s2).
Proof.
  intros w1 w2 base1 base2 token1 token2 s1 s2 res1 res2 err1 err2
         g1 g2 gs1 gs2 m1 m2 ms1 ms2 Hu1 Hu2 Hd1 Hd2 Hg1 Hg2 Hm1 Hm2 Hv.
  rewrite !getWeightMeasurements_run, Hu1, Hu2, Hd1, Hd2. cbn [fst].
  unfold first_value. rewrite Hg1, Hg2, Hm1, Hm2, Hv. reflexivity.
Qed.

Lemma C9_two_mock_responses_same_weight :
  fst (getWeightMeasurements mock_preset_world
         withingsAPIBaseURL "abc" boot)
  = fst (getWeightMeasurements (mock "xyz" (NotJSON "") (Doc mock_measures'))
         withingsAPIBaseURL "xyz" (mkProc [Stdin] [] [] [])).
Proof.
  eapply (C9_weight_depends_only_on_first_value
            mock_preset_world
            (mock "xyz" (NotJSON "") (Doc mock_measures'))
            withingsAPIBaseURL withingsAPIBaseURL "abc" "xyz" boot (mkProc [Stdin] [] [] [])
            (mkResponse 200 (Doc mock_measures)) (mkResponse 200 (Doc mock_measures'))
            None None);
    reflexivity.
Defined.

(** C10. Whatever the access token, [getWeightMeasurements] hands exactly
    one request to [client.Do], provided [http.NewRequest] accepts the
    URL: a POST of the base URL followed by
    [/measure?action=getmeas&meastypes=1&category=1&lastupdate=integer],
    with the single header [Authorization: Bearer <token>]. *)
Theorem C10_one_post_with_bearer_token :
  forall (w : World) (base token : string) (s : Proc),
    url_Parse w (base ++ "/measure?action=getmeas&meastypes=1&category=1&lastupdate=integer") = None ->
    requests (trace (snd (getWeightMeasurements w base token s)))
    = mkRequest "POST"
        (base ++ "/measure?action=getmeas&meastypes=1&category=1&lastupdate=integer")
        [("Authorization", "Bearer " ++ token)]
      :: requests (trace s).
Proof.
  intros w base token s Hurl.
  rewrite getWeightMeasurements_run. unfold measure_url at 1. rewrite Hurl.
  fold (measure_url base). fold (measure_request base token).
  destruct (RoundTrip w _) as [[res|] err];
    cbn [snd after trace]; rewrite !requests_app, requests_errline; reflexivity.
Qed.

Lemma C10_empty_token_request :
  requests (trace (snd (getWeightMeasurements mock_oauth_world
                          withingsAPIBaseURL "" boot)))
  = [mkRequest "POST"
       "https://wbsapi.withings.net/measure?action=getmeas&meastypes=1&category=1&lastupdate=integer"
       [("Authorization", "Bearer ")]].
Proof.
  apply (C10_one_post_with_bearer_token mock_oauth_world
           withingsAPIBaseURL "" boot eq_refl).
Defined.

(** ** [main]: which way it goes *)

Lemma publish_trace (w : World) (token : string) :
  Forall (publish_event token) (trace (snd (publish w token boot))).
Proof.
  unfold boot. rewrite publish_run. cbv zeta. rewrite getWeightMeasurements_run.
  destruct (url_Parse w _) as [m|];
    [|destruct (RoundTrip w _) as [[res|] [m|]];
      [destruct (first_value _) as [v| | |];
       [destruct (existsb _ _); [|destruct (bind_error w)]|..]
      |destruct (first_value _) as [v| | |];
       [destruct (existsb _ _); [|destruct (bind_error w)]|..]|..]];
    cbn; repeat constructor.
Qed.

Lemma publish_calls_getWeightMeasurements (w : World) (token : string) (t : list event) :
  In (measure_call withingsAPIBaseURL token) (trace (snd (publish w token (mkProc t [] [] [])))).
Proof.
  rewrite publish_run. cbv zeta. rewrite getWeightMeasurements_run.
  assert (Hpre : forall evs gs,
             In (measure_call withingsAPIBaseURL token)
                (trace (after (evs ++ [Do (measure_request withingsAPIBaseURL token);
                                       measure_call withingsAPIBaseURL token])
                              (mkProc t gs [] [])))).
  { intros evs gs. cbn [after trace]. apply in_or_app. left.
    apply in_or_app. right. right. left. reflexivity. }
  destruct (url_Parse w _) as [m|].
  { cbn. right. left. reflexivity. }
  destruct (RoundTrip w _) as [[res|] err]; [|apply Hpre].
  destruct (first_value _) as [v| | |]; cbn [snd]; try apply Hpre.
  destruct (existsb _ _); cbn [snd]; [apply Hpre|].
  destruct (bind_error w) as [msg|]; cbn [snd trace];
    right; apply in_or_app; right; apply Hpre.
Qed.

(** C3. With [WITHINGS_API_ACCESS_TOKEN] set to a non-empty string,
    [main] goes straight to the publishing part with the preset token:
    [oauthFlow] is not entered, the console is not read, every request
    made is the measurement query carrying the preset token (so none goes
    to the token endpoint), and [getWeightMeasurements] is entered with
    the preset token. *)
Theorem C3_preset_token_skips_authorization :
  forall (w : World) (token : string),
    Getenv w "WITHINGS_API_ACCESS_TOKEN" = token ->
    token <> "" ->
    main w boot = publish w token boot
    /\ (forall args, ~ In (Call "oauthFlow" args) (trace (snd (main w boot))))
    /\ ~ In Stdin (trace (snd (main w boot)))
    /\ (forall req, In (Do req) (trace (snd (main w boot))) ->
                    req = measure_request withingsAPIBaseURL token
                    /\ String.prefix "https://wbsapi.withings.net/v2/oauth2" (URL req) = false)
    /\ (forall fn args, In (Call fn args) (trace (snd (main w boot))) ->
                        fn = "getWeightMeasurements" /\ args = [withingsAPIBaseURL; token])
    /\ In (Call "getWeightMeasurements" [withingsAPIBaseURL; token]) (trace (snd (main w boot))).
Proof.
  intros w token Henv Hne.
  assert (Hmain : main w boot = publish w token boot).
  { rewrite main_run. cbv zeta. rewrite Henv.
    destruct (is_empty token) eqn:E; [|reflexivity].
    apply is_empty_true in E. contradiction. }
  rewrite Hmain. split; [reflexivity|].
  pose proof (proj1 (Forall_forall _ _) (publish_trace w token)) as Hall.
  repeat split.
  - intros args H. apply Hall in H. destruct H as [H _]. discriminate H.
  - intros H. apply Hall in H. exact H.
  - apply Hall in H. exact H.
  - apply Hall in H. cbn in H. subst req. reflexivity.
  - apply Hall in H. apply H.
  - apply Hall in H. apply H.
  - apply (publish_calls_getWeightMeasurements w token []).
Qed.

Lemma C3_preset_token_run :
  main mock_preset_world boot
  = publish mock_preset_world "abc" boot.
Proof.
  refine (proj1 (C3_preset_token_skips_authorization
                   mock_preset_world "abc" eq_refl _)).
  discriminate.
Defined.

(** C6. With no preset token and a missing client id or secret, [main]
    prints the setup message and returns: nothing else is in the trace (no
    request, no listener), no gauge exists and none is registered.  This
    is the only check: [main] returns normally in no other environment,
    since everything past the check ends in a panic, in [log.Fatal] or
    inside [http.ListenAndServe]. *)
Theorem C6_missing_credentials_return_early :
  forall (w : World),
    (missing_credentials w ->
       main w boot = (Ret tt, mkProc [Stdout setup_message] [] [] []))
    /\ (fst (main w boot) = Ret tt -> missing_credentials w).
Proof.
  intros w. unfold missing_credentials. rewrite main_run. cbv zeta.
  rewrite <- !is_empty_true.
  destruct (is_empty (Getenv w "WITHINGS_API_ACCESS_TOKEN")).
  2:{ split; [intros [H _]; discriminate H|].
      intros H. now apply publish_no_return in H. }
  destruct (is_empty (Getenv w "WITHINGS_APP_CLIENT_ID"));
    [split; auto|].
  destruct (is_empty (Getenv w "WITHINGS_APP_CLIENT_SECRET"));
    [split; auto|].
  cbn [orb]. split; [intros [_ [H|H]]; discriminate H|].
  rewrite oauthFlow_run. cbv zeta.
  destruct (url_Parse w _); [discriminate|].
  destruct (RoundTrip w _) as [[res|] err]; [|discriminate].
  unfold after, boot. cbn [trace gauges registry mux].
  intros H. now apply publish_no_return in H.
Qed.

Lemma C6_no_credentials_run :
  main world_without_credentials boot
  = (Ret tt, mkProc [Stdout setup_message] [] [] []).
Proof.
  apply (proj1 (C6_missing_credentials_return_early world_without_credentials)).
  split; [reflexivity | left; reflexivity].
Defined.

(** ** The authorization flow *)

(** C5. When the token endpoint's response is received, the second value
    that [oauthFlow] returns is the [AccessToken] field of the parsed
    body, whatever else the response holds and whether or not
    [json.Unmarshal] reported an error; for [token_response token] it is
    [token]. *)
Theorem C5_token_is_access_token_field :
  forall (w : World) (base clientID clientSecret scopes : string) (s : Proc)
         (res : Response) (err : option string),
    url_Parse w (token_url base clientID clientSecret (Scanln w)) = None ->
    RoundTrip w (token_request base clientID clientSecret (Scanln w)) = (Some res, err) ->
    fst (oauthFlow w base clientID clientSecret scopes s)
    = Ret (Scanln w,
           RequestToken.AccessToken (RequestToken.Body (parsedRequestToken (Body res))))
    /\ (forall token, Body res = Doc (token_response token) ->
          fst (oauthFlow w base clientID clientSecret scopes s) = Ret (Scanln w, token)).
Proof.
  intros w base clientID clientSecret scopes s res err Hurl Hdo.
  rewrite oauthFlow_run. cbv zeta. cbn [URL token_request].
  rewrite Hurl. fold (token_request base clientID clientSecret (Scanln w)).
  rewrite Hdo. cbn [fst]. split; [reflexivity|].
  intros token ->. reflexivity.
Qed.

Lemma C5_mock_token_returned :
  fst (oauthFlow mock_oauth_world
         withingsAPIBaseURL "id" "secret" "user.info,user.metrics" boot)
  = Ret ("c0de", "t0ken").
Proof.
  apply (proj2 (C5_token_is_access_token_field
                  mock_oauth_world
                  withingsAPIBaseURL "id" "secret" "user.info,user.metrics" boot
                  (mkResponse 200 (Doc (token_response "t0ken"))) None eq_refl eq_refl)).
  reflexivity.
Defined.

(** X5. For every token response that is a JSON object in which, with
    keys taken up to case and occurring once, [body] is an object and its
    [access_token] is a string, [oauthFlow] returns that string as the
    access token, whatever other members the response has and whether
    or not they fit their fields. *)
Theorem X5_token_read_from_the_document :
  forall (w : World) (base clientID clientSecret scopes : string) (s : Proc)
         (res : Response) (err : option string)
         (top bm : list (string * json)) (token : string),
    url_Parse w (token_url base clientID clientSecret (Scanln w)) = None ->
    RoundTrip w (token_request base clientID clientSecret (Scanln w)) = (Some res, err) ->
    Body res = Doc (JObject top) ->
    sole_member "body" (JObject bm) top ->
    sole_member "access_token" (JString token) bm ->
    fst (oauthFlow w base clientID clientSecret scopes s) = Ret (Scanln w, token).
Proof.
  intros w base clientID clientSecret scopes s res err top bm token
         Hurl Hdo Hdoc Hbody Htoken.
  rewrite oauthFlow_run. cbv zeta. cbn [URL token_request].
  rewrite Hurl. fold (token_request base clientID clientSecret (Scanln w)).
  rewrite Hdo, Hdoc. cbn [fst].
  now rewrite (access_token_of_document top bm token Hbody Htoken).
Qed.

Lemma X5_mock_document_run :
  fst (oauthFlow mock_oauth_world withingsAPIBaseURL "id" "secret"
         "user.info,user.metrics" boot)
  = Ret ("c0de", "t0ken").
Proof.
  refine (X5_token_read_from_the_document mock_oauth_world withingsAPIBaseURL
            "id" "secret" "user.info,user.metrics" boot
            (mkResponse 200 (Doc (token_response "t0ken"))) None
            _ _ "t0ken" eq_refl eq_refl eq_refl _ _).
  - exists [("status", lit 0 0)], "body", [].
    split; [reflexivity|]. split; [reflexivity|]. repeat constructor.
  - apply sole_member_here; [reflexivity|]. repeat constructor.
Defined.

(** C4, as stated, fails twice.  A body that is not JSON leaves nothing on
    standard output for the error: the result of [json.Unmarshal] is
    dropped.  And when [client.Do] returns no response the error is
    printed, but [res.Body] then panics on the nil [res]. *)
Lemma C4_counterexample :
  (oauth_error world_with_html_answer
     (token_request withingsAPIBaseURL "id" "secret" "c0de")
     "invalid character '<' looking for beginning of value"
   /\ ~ printed_and_swallowed world_with_html_answer
          withingsAPIBaseURL "id" "secret" "user.info,user.metrics"
          "invalid character '<' looking for beginning of value")
  /\ (oauth_error world_without_network
        (token_request withingsAPIBaseURL "id" "secret" "c0de")
        "dial tcp: connection refused"
      /\ ~ printed_and_swallowed world_without_network
             withingsAPIBaseURL "id" "secret" "user.info,user.metrics"
             "dial tcp: connection refused"
      /\ fst (oauthFlow world_without_network
                withingsAPIBaseURL "id" "secret" "user.info,user.metrics" boot)
         = Panicked NilDereference).
Proof.
  split; [split|split; [|split]].
  - right. eexists _, _. split; reflexivity.
  - intros [H _]. vm_compute in H.
    repeat (destruct H as [H|H]; [discriminate H|]). exact H.
  - left. eexists. reflexivity.
  - intros [_ H]. discriminate H.
  - reflexivity.
Qed.

(** X3. When [client.Do] returns no response for the token exchange,
    [oauthFlow] prints the error, if one came with it, and then panics on
    [res.Body] with a nil dereference: no token is returned and the
    closing line is not printed. *)
Theorem X3_token_exchange_without_response_panics :
  forall (w : World) (base clientID clientSecret scopes : string) (s : Proc)
         (err : option string),
    url_Parse w (token_url base clientID clientSecret (Scanln w)) = None ->
    RoundTrip w (token_request base clientID clientSecret (Scanln w)) = (None, err) ->
    oauthFlow w base clientID clientSecret scopes s
    = (Panicked NilDereference,
       after (errline err
              ++ Do (token_request base clientID clientSecret (Scanln w))
              :: oauth_prompt base clientID clientSecret scopes) s).
Proof.
  intros w base clientID clientSecret scopes s err Hurl Hdo.
  rewrite oauthFlow_run. cbv zeta. cbn [URL token_request].
  rewrite Hurl. fold (token_request base clientID clientSecret (Scanln w)).
  now rewrite Hdo.
Qed.

Lemma X3_no_network_run :
  fst (oauthFlow world_without_network withingsAPIBaseURL "id" "secret"
         "user.info,user.metrics" boot)
  = Panicked NilDereference.
Proof.
  exact (f_equal fst
           (X3_token_exchange_without_response_panics world_without_network
              withingsAPIBaseURL "id" "secret" "user.info,user.metrics" boot
              (Some "dial tcp: connection refused") eq_refl eq_refl)).
Defined.

(** C4, amended. When [client.Do] returns a response whose body is not
    well-formed JSON, [json.Unmarshal] fails and its error is dropped
    without a line on standard output; an error that [client.Do]
    returned along with the response is printed; the flow goes on to its
    end and returns an empty access token. *)
Theorem C4_errors_with_a_response_are_swallowed :
  forall (w : World) (base clientID clientSecret scopes : string) (s : Proc)
         (res : Response) (err : option string) (msg : string),
    url_Parse w (token_url base clientID clientSecret (Scanln w)) = None ->
    RoundTrip w (token_request base clientID clientSecret (Scanln w)) = (Some res, err) ->
    Body res = NotJSON msg ->
    snd (json_Unmarshal RequestToken.store (Body res) RequestToken.zero)
    = Some (SyntaxError msg)
    /\ oauthFlow w base clientID clientSecret scopes s
       = (Ret (Scanln w, ""),
          after (export_hint ""
                 :: errline err
                 ++ Do (token_request base clientID clientSecret (Scanln w))
                 :: oauth_prompt base clientID clientSecret scopes) s).
Proof.
  intros w base clientID clientSecret scopes s res err msg Hurl Hdo Hbody.
  split; [rewrite Hbody; reflexivity|].
  rewrite oauthFlow_run. cbv zeta. cbn [URL token_request].
  rewrite Hurl. fold (token_request base clientID clientSecret (Scanln w)).
  rewrite Hdo. unfold access_token. rewrite Hbody. reflexivity.
Qed.

Lemma C4_html_answer_run :
  fst (oauthFlow world_with_html_answer
         withingsAPIBaseURL "id" "secret" "user.info,user.metrics" boot)
  = Ret ("c0de", "").
Proof.
  refine (f_equal fst
            (proj2 (C4_errors_with_a_response_are_swallowed world_with_html_answer
                      withingsAPIBaseURL "id" "secret" "user.info,user.metrics" boot
                      (mkResponse 200 (NotJSON "invalid character '<' looking for beginning of value"))
                      None "invalid character '<' looking for beginning of value"
                      eq_refl eq_refl eq_refl))).
Defined.

(** ** Serving: the registry and the text *)

Lemma append_assoc (a b c : string) : (a ++ b) ++ c = a ++ (b ++ c).
Proof. induction a as [|x a IH]; cbn; [reflexivity | now rewrite IH]. Qed.

Lemma append_empty_r (a : string) : a ++ "" = a.
Proof. induction a as [|x a IH]; cbn; [reflexivity | now rewrite IH]. Qed.

Lemma contains_here (needle post : string) : contains (needle ++ post) needle.
Proof. exists "", post. reflexivity. Qed.

Lemma contains_later (pre hay needle : string) :
  contains hay needle -> contains (pre ++ hay) needle.
Proof.
  intros (a & b & ->). exists (pre ++ a), b. now rewrite append_assoc.
Qed.

Lemma contains_within (hay mid needle : string) :
  contains hay mid -> contains mid needle -> contains hay needle.
Proof.
  intros (a & b & ->) (c & d & ->).
  exists (a ++ c), (d ++ b). now rewrite !append_assoc.
Qed.

Lemma exposition_contains (w : World) (f : family) (fams : list family) :
  In f fams -> contains (exposition w fams) (family_text w f).
Proof.
  induction fams as [|g fams IH]; intros H; [destruct H|].
  destruct H as [->|H]; cbn [exposition fold_right].
  - apply contains_here.
  - apply contains_later, IH, H.
Qed.

Lemma insert_family_In (f x : family) (l : list family) :
  In x (insert_family f l) <-> In x (f :: l).
Proof.
  induction l as [|g l IH]; cbn [insert_family]; [reflexivity|].
  destruct (String.leb _ _); [reflexivity|].
  cbn [In] in *. rewrite IH. tauto.
Qed.

Lemma sort_families_In (x : family) (l : list family) :
  In x (sort_families l) <-> In x l.
Proof.
  induction l as [|g l IH]; cbn [sort_families fold_right]; [reflexivity|].
  fold (sort_families l). rewrite insert_family_In. cbn [In]. now rewrite IH.
Qed.

Section Sorting.
Variable p : family -> bool.

Lemma insert_family_count (f : family) (l : list family) :
  List.length (filter p (insert_family f l)) = List.length (filter p (f :: l)).
Proof.
  induction l as [|g l IH]; cbn [insert_family]; [reflexivity|].
  destruct (String.leb _ _); [reflexivity|].
  cbn [filter] in *. destruct (p g), (p f); cbn [List.length] in *; lia.
Qed.

Lemma sort_families_count (l : list family) :
  List.length (filter p (sort_families l)) = List.length (filter p l).
Proof.
  induction l as [|g l IH]; cbn [sort_families fold_right]; [reflexivity|].
  fold (sort_families l). rewrite insert_family_count.
  cbn [filter]. destruct (p g); cbn [List.length]; now rewrite IH.
Qed.

Lemma filter_only (x : family) (l : list family) :
  List.length (filter p l) = 1%nat -> In x l -> p x = true -> filter p l = [x].
Proof.
  intros Hlen Hin Hp.
  assert (Hx : In x (filter p l)) by (apply filter_In; auto).
  destruct (filter p l) as [|y [|z r]]; try discriminate Hlen.
  destruct Hx as [->|[]]. reflexivity.
Qed.
End Sorting.

Lemma builtin_not_named (w : World) (n : nat) (name : string) (names : list string) :
  existsb (String.eqb name) names = false ->
  filter (named name) (map (fun b => Builtin b (collect w n b)) names) = [].
Proof.
  induction names as [|b names IH]; cbn [existsb map filter]; [reflexivity|].
  intros H. apply orb_false_iff in H. destruct H as [Hb Hrest].
  unfold named at 1. cbn [family_name]. rewrite String.eqb_sym, Hb. auto.
Qed.

(** What a scrape gathers once [main] has registered and set its gauge. *)
Lemma Gather_own_gauge (w : World) (n : nat) (t : list event) (c : Gauge)
    (rt : list (string * handler)) :
  existsb (String.eqb (Name c)) (builtin w) = false ->
  filter (named (Name c)) (Gather w n (mkProc t [c] [0%nat] rt)) = [Own c]
  /\ In (Own c) (Gather w n (mkProc t [c] [0%nat] rt)).
Proof.
  intros Hfresh. unfold Gather. cbn [gauges registry flat_map nth_error app].
  assert (Hin : In (Own c)
                  (sort_families
                     (map (fun name => Builtin name (collect w n name)) (builtin w) ++ [Own c]))).
  { apply sort_families_In, in_or_app. right. left. reflexivity. }
  split; [|exact Hin].
  apply filter_only; [|exact Hin|apply String.eqb_refl].
  rewrite sort_families_count, filter_app, length_app, builtin_not_named by exact Hfresh.
  cbn [filter]. unfold named. cbn [family_name]. now rewrite String.eqb_refl.
Qed.

(** A request leaves the process state as it was. *)
Lemma ServeHTTP_proc (w : World) (srv : Server) (path : string) :
  proc (snd (ServeHTTP w srv path)) = proc srv.
Proof.
  unfold ServeHTTP. destruct (find _ _) as [[pattern []]|]; reflexivity.
Qed.

Lemma serve_proc (w : World) (paths : list string) :
  forall srv, proc (snd (serve w srv paths)) = proc srv.
Proof.
  induction paths as [|path paths IH]; intros srv; cbn [serve]; [reflexivity|].
  pose proof (ServeHTTP_proc w srv path) as Hstep.
  destruct (ServeHTTP w srv path) as [r srv1]. cbn [snd] in Hstep.
  specialize (IH srv1). destruct (serve w srv1 paths) as [rs srv2].
  cbn [snd] in *. congruence.
Qed.

(** ** [main]: the serving phase *)

Lemma startup_event_errline (err : option string) : Forall startup_event (errline err).
Proof. destruct err; repeat constructor. Qed.

Lemma first_value_cases (p : Measures.t) :
  (exists v, first_value p = Ret v) \/ first_value p = Panicked (IndexOutOfRange 0 0).
Proof.
  unfold first_value.
  destruct (Measures.MeasureGroups _) as [|g gs]; [now right|].
  destruct (Measures.Measures g) as [|m ms]; [now right|].
  left. eexists. reflexivity.
Qed.

Lemma publish_serving (w : World) (token : string) (t : list event) (s : Proc) :
  publish w token (mkProc t [] [] []) = (Serving, s) ->
  exists res err v,
    url_Parse w (measure_url withingsAPIBaseURL) = None
    /\ RoundTrip w (measure_request withingsAPIBaseURL token) = (Some res, err)
    /\ first_value (parsedMeasures (Body res)) = Ret v
    /\ existsb (String.eqb gauge_name) (builtin w) = false
    /\ s = serving_state token err v t.
Proof.
  rewrite publish_run. cbv zeta. rewrite getWeightMeasurements_run.
  destruct (url_Parse w _) as [m|]; [discriminate|].
  destruct (RoundTrip w _) as [[res|] err]; [|discriminate].
  destruct (first_value_cases (parsedMeasures (Body res))) as [[v Hv]|Hv];
    rewrite Hv; [|discriminate].
  destruct (existsb _ _) eqn:Hfresh; [discriminate|].
  destruct (bind_error w); [discriminate|].
  intros H. injection H as <-.
  exists res, err, v. repeat split; auto.
Qed.

Lemma main_serving (w : World) (s : Proc) :
  main w boot = (Serving, s) ->
  exists token res err v t,
    url_Parse w (measure_url withingsAPIBaseURL) = None
    /\ RoundTrip w (measure_request withingsAPIBaseURL token) = (Some res, err)
    /\ first_value (parsedMeasures (Body res)) = Ret v
    /\ existsb (String.eqb gauge_name) (builtin w) = false
    /\ Forall startup_event t
    /\ s = serving_state token err v t.
Proof.
  rewrite main_run. cbv zeta.
  destruct (is_empty (Getenv w "WITHINGS_API_ACCESS_TOKEN")).
  - destruct (_ || _); [discriminate|].
    rewrite oauthFlow_run. cbv zeta.
    destruct (url_Parse w _) as [m|]; [discriminate|].
    destruct (RoundTrip w _) as [[r|] e]; [|discriminate].
    unfold after, boot. cbn [trace gauges registry mux].
    intros H. apply publish_serving in H.
    destruct H as (res & err & v & H1 & H2 & H3 & H4 & ->).
    exists (access_token (Body r)), res, err, v. eexists.
    split; [exact H1|]. split; [exact H2|]. split; [exact H3|].
    split; [exact H4|]. split; [|reflexivity].
    rewrite app_nil_r. constructor; [exact I|].
    apply Forall_app. split; [apply startup_event_errline|repeat constructor].
  - intros H. apply publish_serving in H.
    destruct H as (res & err & v & H1 & H2 & H3 & H4 & ->).
    exists (Getenv w "WITHINGS_API_ACCESS_TOKEN"), res, err, v, [].
    repeat split; auto.
Qed.

Lemma first_value_returned (w : World) (token : string) (s : Proc)
    (res : Response) (err : option string) (v : float) :
  url_Parse w (measure_url withingsAPIBaseURL) = None ->
  RoundTrip w (measure_request withingsAPIBaseURL token) = (Some res, err) ->
  first_value (parsedMeasures (Body res)) = Ret v ->
  fst (getWeightMeasurements w withingsAPIBaseURL token s) = Ret v.
Proof.
  intros Hurl Hdo Hv. now rewrite getWeightMeasurements_run, Hurl, Hdo.
Qed.

(** C8. In every execution that reaches the serving phase the gauge is
    written once, with the weight that [getWeightMeasurements] returned,
    and before the listener starts: the history ends with that write, two
    log lines, the registration of the handler and the start of the
    listener, and nothing before it writes a gauge or listens.  Serving
    requests leaves the process state, and so the gauge, as it was. *)
Theorem C8_gauge_set_once_before_serving :
  forall (w : World) (s : Proc),
    main w boot = (Serving, s) ->
    exists (token : string) (v : float) (before : list event),
      (forall s0, fst (getWeightMeasurements w withingsAPIBaseURL token s0) = Ret v)
      /\ history s
         = (before
            ++ [SetGauge 0 v;
                Log "Setting withings_current_weight_metric to %fkg." [v];
                Handle "/metrics";
                Log "Serving metrics on http://localhost:8080/metrics. Configure your Prometheus to scrape accordingly." [];
                Listen ":8080"])%list
      /\ Forall startup_event before
      /\ nth_error (gauges s) 0 = Some (mkGauge "withings_current_weight"
                                          "Shows the latest weight measurement (assumed in kg)" v)
      /\ (forall srv path, gauges (proc (snd (ServeHTTP w srv path))) = gauges (proc srv))
      /\ (forall n paths, proc (snd (serve w (mkServer s n) paths)) = s).
Proof.
  intros w s H. apply main_serving in H.
  destruct H as (token & res & err & v & t & Hurl & Hdo & Hv & Hfresh & Ht & ->).
  exists token, v,
    (rev (Register 0
          :: (errline err ++ [Do (measure_request withingsAPIBaseURL token);
                              measure_call withingsAPIBaseURL token]) ++ t))%list.
  split; [intros s0; eapply first_value_returned; eauto|].
  split.
  { exact (rev_app_distr
             [Listen ":8080";
              Log "Serving metrics on http://localhost:8080/metrics. Configure your Prometheus to scrape accordingly." [];
              Handle "/metrics";
              Log "Setting withings_current_weight_metric to %fkg." [v];
              SetGauge 0 v]
             (Register 0
              :: (errline err ++ [Do (measure_request withingsAPIBaseURL token);
                                  measure_call withingsAPIBaseURL token]) ++ t)%list). }
  split.
  { apply Forall_rev. constructor; [exact I|].
    apply Forall_app. split; [|exact Ht].
    apply Forall_app. split; [apply startup_event_errline|repeat constructor]. }
  split; [reflexivity|].
  split; [intros srv path; now rewrite ServeHTTP_proc|].
  intros n paths. now rewrite serve_proc.
Qed.

Lemma C8_mock_serving_keeps_state :
  proc (snd (serve mock_oauth_world (mkServer (snd (main mock_oauth_world boot)) 0)
               ["/metrics"; "/"; "/metrics"]))
  = snd (main mock_oauth_world boot).
Proof.
  destruct (C8_gauge_set_once_before_serving mock_oauth_world
              (snd (main mock_oauth_world boot)) eq_refl)
    as (token & v & before & _ & _ & _ & _ & _ & H).
  apply H.
Defined.

(** C7. Once [main] is serving, the listener is on [:8080] and a request
    for [/metrics] is answered with the text exposition of what the
    default registry gathers; among the gathered families exactly one is
    named [withings_current_weight], it is the program's gauge and holds
    the weight extracted from the measurement response; the text has its
    [TYPE] line and its sample line.  When the response was
    [mock_measures] (value 75000) and [strconv] writes 75.0 as [75], the
    text contains [withings_current_weight 75]. *)
Theorem C7_metrics_endpoint_serves_the_weight :
  forall (w : World) (s : Proc),
    main w boot = (Serving, s) ->
    exists (token : string) (res : Response) (err : option string) (v : float),
      RoundTrip w (measure_request withingsAPIBaseURL token) = (Some res, err)
      /\ (forall s0, fst (getWeightMeasurements w withingsAPIBaseURL token s0) = Ret v)
      /\ In (Listen ":8080") (trace s)
      /\ forall n : nat,
           ServeHTTP w (mkServer s n) "/metrics"
           = (OK (exposition w (Gather w n s)), mkServer s (S n))
           /\ filter (named "withings_current_weight") (Gather w n s)
              = [Own (mkGauge "withings_current_weight"
                        "Shows the latest weight measurement (assumed in kg)" v)]
           /\ contains (exposition w (Gather w n s))
                ("# TYPE withings_current_weight gauge" ++ LF
                 ++ "withings_current_weight " ++ writeFloat w v ++ LF)
           /\ (Body res = Doc mock_measures ->
               FormatFloat_g w 75 = "75" ->
               contains (exposition w (Gather w n s)) "withings_current_weight 75").
Proof.
  intros w s H. apply main_serving in H.
  destruct H as (token & res & err & v & t & Hurl & Hdo & Hv & Hfresh & Ht & ->).
  exists token, res, err, v.
  split; [exact Hdo|].
  split; [intros s0; eapply first_value_returned; eauto|].
  split; [left; reflexivity|].
  intros n.
  destruct (Gather_own_gauge w n
              (trace (serving_state token err v t))
              (mkGauge gauge_name gauge_help v)
              [("/metrics", promhttp_Handler)] Hfresh) as [Hone Hin].
  fold (serving_state token err v t) in Hone, Hin.
  assert (Hsample : contains (exposition w (Gather w n (serving_state token err v t)))
                      ("# TYPE withings_current_weight gauge" ++ LF
                       ++ "withings_current_weight " ++ writeFloat w v ++ LF)).
  { eapply contains_within; [apply exposition_contains, Hin|].
    exists ("# HELP withings_current_weight Shows the latest weight measurement (assumed in kg)" ++ LF), "".
    rewrite append_empty_r. reflexivity. }
  split; [reflexivity|].
  split; [exact Hone|].
  split; [exact Hsample|].
  intros Hbody Hfmt. rewrite Hbody, mock_first_value in Hv. injection Hv as <-.
  eapply contains_within; [exact Hsample|].
  exists ("# TYPE withings_current_weight gauge" ++ LF), LF.
  unfold writeFloat. cbn. rewrite Hfmt. reflexivity.
Qed.

Lemma C7_mock_scrape_shows_75 :
  contains (exposition mock_oauth_world
              (Gather mock_oauth_world 0 (snd (main mock_oauth_world boot))))
           "withings_current_weight 75".
Proof.
  destruct (C7_metrics_endpoint_serves_the_weight mock_oauth_world
              (snd (main mock_oauth_world boot)) eq_refl)
    as (token & res & err & v & Hdo & _ & _ & H).
  destruct (H 0%nat) as (_ & _ & _ & H75).
  apply H75; [|reflexivity].
  assert (Htoken : RoundTrip mock_oauth_world (measure_request withingsAPIBaseURL token)
                   = (Some (mkResponse 200 (Doc mock_measures)), None)) by reflexivity.
  rewrite Htoken in Hdo. now injection Hdo as <- _.
Defined.

(** * Further properties *)

(** ** Requests that are never built *)

(** X6. When [http.NewRequest] rejects the URL of the measurement query,
    [getWeightMeasurements] prints the error and panics on
    [req.Header.Add] with a nil dereference: no request reaches
    [client.Do]. *)
Theorem X6_rejected_measurement_url_panics :
  forall (w : World) (base token : string) (s : Proc) (e : string),
    url_Parse w (measure_url base) = Some e ->
    fst (getWeightMeasurements w base token s) = Panicked NilDereference
    /\ hd_error (trace (snd (getWeightMeasurements w base token s))) = Some (Stdout (e ++ LF))
    /\ requests (trace (snd (getWeightMeasurements w base token s))) = requests (trace s).
Proof.
  intros w base token s e Hurl.
  rewrite getWeightMeasurements_run, Hurl. repeat split.
Qed.

Lemma X6_rejected_url_run :
  fst (getWeightMeasurements world_rejecting_urls withingsAPIBaseURL "abc" boot)
  = Panicked NilDereference.
Proof.
  exact (proj1 (X6_rejected_measurement_url_panics world_rejecting_urls
                  withingsAPIBaseURL "abc" boot
                  "net/url: invalid control character in URL" eq_refl)).
Defined.

(** X7. When [http.NewRequest] rejects the URL of the token exchange
    (the client id, the secret and the code go into it as they are),
    [oauthFlow] has already printed its prompts and read the console; it
    prints the error and panics inside [client.Do] on the nil request: no
    request is made and no token is returned. *)
Theorem X7_rejected_token_url_panics :
  forall (w : World) (base clientID clientSecret scopes : string) (s : Proc) (e : string),
    url_Parse w (token_url base clientID clientSecret (Scanln w)) = Some e ->
    oauthFlow w base clientID clientSecret scopes s
    = (Panicked NilDereference,
       after (Stdout (e ++ LF) :: oauth_prompt base clientID clientSecret scopes) s)
    /\ requests (trace (snd (oauthFlow w base clientID clientSecret scopes s)))
       = requests (trace s).
Proof.
  intros w base clientID clientSecret scopes s e Hurl.
  rewrite oauthFlow_run. cbv zeta. cbn [URL token_request].
  rewrite Hurl. split; reflexivity.
Qed.

Lemma X7_rejected_url_run :
  fst (oauthFlow world_rejecting_urls withingsAPIBaseURL "id" "secret"
         "user.info,user.metrics" boot)
  = Panicked NilDereference.
Proof.
  exact (f_equal fst
           (proj1 (X7_rejected_token_url_panics world_rejecting_urls
                     withingsAPIBaseURL "id" "secret" "user.info,user.metrics" boot
                     "net/url: invalid control character in URL" eq_refl))).
Defined.

(** ** The token exchange as a whole *)

(** X8. When the token endpoint answers, [oauthFlow] has made exactly one
    request, a POST without headers whose URL carries the client id, the
    client secret and the code read from the console; the console was
    read right before the request; the first value returned is that
    code; and the last thing printed is the export line for the very
    token that is returned. *)
Theorem X8_token_exchange_request_and_result :
  forall (w : World) (base clientID clientSecret scopes : string) (s : Proc)
         (res : Response) (err : option string),
    url_Parse w (token_url base clientID clientSecret (Scanln w)) = None ->
    RoundTrip w (token_request base clientID clientSecret (Scanln w)) = (Some res, err) ->
    exists (token : string) (later earlier : list event),
      fst (oauthFlow w base clientID clientSecret scopes s) = Ret (Scanln w, token)
      /\ trace (snd (oauthFlow w base clientID clientSecret scopes s))
         = (export_hint token :: later
            ++ Do (mkRequest "POST"
                     (base ++ "/v2/oauth2?action=requesttoken&grant_type=authorization_code&client_id="
                           ++ clientID ++ "&client_secret=" ++ clientSecret
                           ++ "&code=" ++ Scanln w ++ "&redirect_uri=http://localhost")
                     [])
            :: Stdin :: earlier)%list
      /\ requests later = []
      /\ requests earlier = requests (trace s).
Proof.
  intros w base clientID clientSecret scopes s res err Hurl Hdo.
  rewrite oauthFlow_run. cbv zeta. cbn [URL token_request].
  rewrite Hurl. fold (token_request base clientID clientSecret (Scanln w)).
  rewrite Hdo.
  exists (access_token (Body res)), (errline err),
    (tl (oauth_prompt base clientID clientSecret scopes) ++ trace s)%list.
  split; [reflexivity|]. split.
  - unfold after, oauth_prompt. cbn [snd trace tl].
    rewrite <- app_comm_cons, <- app_assoc. reflexivity.
  - split; [apply requests_errline|]. now rewrite requests_app.
Qed.

Lemma X8_mock_exchange_run :
  exists token,
    fst (oauthFlow mock_oauth_world withingsAPIBaseURL "id" "secret"
           "user.info,user.metrics" boot)
    = Ret ("c0de", token).
Proof.
  destruct (X8_token_exchange_request_and_result mock_oauth_world withingsAPIBaseURL
              "id" "secret" "user.info,user.metrics" boot
              (mkResponse 200 (Doc (token_response "t0ken"))) None eq_refl eq_refl)
    as (token & later & earlier & Hret & _).
  exists token. exact Hret.
Defined.

(** ** [main] as a composition *)

Lemma after_boot (evs : list event) : after evs boot = mkProc (evs ++ []) [] [] [].
Proof. reflexivity. Qed.

Lemma not_empty_false (x : string) : x <> "" -> is_empty x = false.
Proof. destruct x; [contradiction|reflexivity]. Qed.

(** Every way [publish] can go, told by what ends it. *)
Ltac publish_cases w :=
  rewrite publish_run; cbv zeta; rewrite getWeightMeasurements_run;
  destruct (url_Parse w (measure_url withingsAPIBaseURL)) as [?m|];
  [|destruct (RoundTrip w _) as [[?res|] [?m|]];
    [destruct (first_value_cases (parsedMeasures (Body res))) as [[?v ?Hv]|?Hv];
     rewrite Hv; [destruct (existsb _ _); [|destruct (bind_error w)]|]
    |destruct (first_value_cases (parsedMeasures (Body res))) as [[?v ?Hv]|?Hv];
     rewrite Hv; [destruct (existsb _ _); [|destruct (bind_error w)]|]
    |..]];
  cbn [snd fst trace gauges registry mux after errline publish_events app].

Lemma publish_requests (w : World) (token : string) (t : list event) :
  url_Parse w (measure_url withingsAPIBaseURL) = None ->
  requests (trace (snd (publish w token (mkProc t [] [] []))))
  = measure_request withingsAPIBaseURL token :: requests t.
Proof.
  intros Hurl. publish_cases w; try discriminate Hurl; reflexivity.
Qed.

Lemma publish_requests_bound (w : World) (token : string) (t : list event) :
  (List.length (requests (trace (snd (publish w token (mkProc t [] [] [])))))
   <= 1 + List.length (requests t))%nat.
Proof.
  publish_cases w; cbn [requests flat_map app List.length measure_call];
    fold (requests t); lia.
Qed.

(** X9. With no token preset, both credentials set and the token endpoint
    answering, [main] is [oauthFlow] followed by the publishing part run
    with the token that [oauthFlow] returned: when the measurement URL is
    accepted, the requests of the whole run are the token exchange and
    then the measurement query carrying that token as its bearer. *)
Theorem X9_main_passes_the_obtained_token_on :
  forall (w : World) (res : Response) (err : option string),
    Getenv w "WITHINGS_API_ACCESS_TOKEN" = "" ->
    Getenv w "WITHINGS_APP_CLIENT_ID" <> "" ->
    Getenv w "WITHINGS_APP_CLIENT_SECRET" <> "" ->
    url_Parse w (token_url withingsAPIBaseURL (Getenv w "WITHINGS_APP_CLIENT_ID")
                   (Getenv w "WITHINGS_APP_CLIENT_SECRET") (Scanln w)) = None ->
    RoundTrip w (token_request withingsAPIBaseURL (Getenv w "WITHINGS_APP_CLIENT_ID")
                   (Getenv w "WITHINGS_APP_CLIENT_SECRET") (Scanln w)) = (Some res, err) ->
    main w boot
    = publish w (RequestToken.AccessToken (RequestToken.Body (parsedRequestToken (Body res))))
        (snd (oauthFlow w withingsAPIBaseURL (Getenv w "WITHINGS_APP_CLIENT_ID")
                (Getenv w "WITHINGS_APP_CLIENT_SECRET") "user.info,user.metrics" boot))
    /\ (url_Parse w (measure_url withingsAPIBaseURL) = None ->
        history_requests (snd (main w boot))
        = [token_request withingsAPIBaseURL (Getenv w "WITHINGS_APP_CLIENT_ID")
             (Getenv w "WITHINGS_APP_CLIENT_SECRET") (Scanln w);
           measure_request withingsAPIBaseURL
             (RequestToken.AccessToken (RequestToken.Body (parsedRequestToken (Body res))))]).
Proof.
  intros w res err Htoken Hid Hsecret Hurl Hdo.
  assert (Hmain : main w boot
                  = publish w (access_token (Body res))
                      (snd (oauthFlow w withingsAPIBaseURL (Getenv w "WITHINGS_APP_CLIENT_ID")
                              (Getenv w "WITHINGS_APP_CLIENT_SECRET")
                              "user.info,user.metrics" boot))).
  { rewrite main_run. cbv zeta.
    rewrite Htoken, (not_empty_false _ Hid), (not_empty_false _ Hsecret).
    cbn [is_empty orb].
    rewrite oauthFlow_run. cbv zeta. cbn [URL token_request].
    rewrite Hurl.
    fold (token_request withingsAPIBaseURL (Getenv w "WITHINGS_APP_CLIENT_ID")
            (Getenv w "WITHINGS_APP_CLIENT_SECRET") (Scanln w)).
    rewrite Hdo. reflexivity. }
  split; [exact Hmain|].
  intros Hmeasure. unfold history_requests. rewrite Hmain.
  rewrite oauthFlow_run. cbv zeta. cbn [URL token_request].
  rewrite Hurl.
  fold (token_request withingsAPIBaseURL (Getenv w "WITHINGS_APP_CLIENT_ID")
          (Getenv w "WITHINGS_APP_CLIENT_SECRET") (Scanln w)).
  rewrite Hdo. cbn [snd]. rewrite after_boot.
  rewrite (publish_requests w _ _ Hmeasure).
  rewrite app_nil_r. cbn [requests flat_map app].
  fold (requests (errline err ++ Do (token_request withingsAPIBaseURL
                                       (Getenv w "WITHINGS_APP_CLIENT_ID")
                                       (Getenv w "WITHINGS_APP_CLIENT_SECRET") (Scanln w))
                  :: oauth_prompt withingsAPIBaseURL (Getenv w "WITHINGS_APP_CLIENT_ID")
                       (Getenv w "WITHINGS_APP_CLIENT_SECRET") "user.info,user.metrics")).
  rewrite requests_app, requests_errline. reflexivity.
Qed.

Lemma X9_mock_two_requests :
  history_requests (snd (main mock_oauth_world boot))
  = [token_request withingsAPIBaseURL "id" "secret" "c0de";
     measure_request withingsAPIBaseURL "t0ken"].
Proof.
  refine (proj2 (X9_main_passes_the_obtained_token_on mock_oauth_world
                   (mkResponse 200 (Doc (token_response "t0ken"))) None
                   eq_refl _ _ eq_refl eq_refl) eq_refl);
    discriminate.
Defined.

(** ** What [main] never does *)

Lemma withings_post_measure (token : string) :
  withings_post (measure_request withingsAPIBaseURL token).
Proof. split; reflexivity. Qed.

Lemma withings_post_token (clientID clientSecret authCode : string) :
  withings_post (token_request withingsAPIBaseURL clientID clientSecret authCode).
Proof. split; reflexivity. Qed.

Lemma only_withings_posts_errline (err : option string) :
  Forall only_withings_posts (errline err).
Proof. destruct err; repeat constructor. Qed.

Lemma publish_only_withings_posts (w : World) (token : string) (t : list event) :
  Forall only_withings_posts t ->
  Forall only_withings_posts (trace (snd (publish w token (mkProc t [] [] [])))).
Proof.
  intros Ht. pose proof (withings_post_measure token) as Hpost.
  publish_cases w;
    repeat first [ exact Ht | exact Hpost | exact I | apply Forall_cons ].
Qed.

(** X10. In every world, every request that [main] hands to [client.Do]
    is a POST to a URL that starts with [https://wbsapi.withings.net/],
    and there are at most two of them. *)
Theorem X10_main_only_posts_to_the_withings_api :
  forall (w : World),
    (forall req, In (Do req) (trace (snd (main w boot))) ->
       Method req = "POST"
       /\ String.prefix "https://wbsapi.withings.net/" (URL req) = true)
    /\ (List.length (requests (trace (snd (main w boot)))) <= 2)%nat.
Proof.
  intros w.
  assert (H : Forall only_withings_posts (trace (snd (main w boot)))
              /\ (List.length (requests (trace (snd (main w boot)))) <= 2)%nat).
  { rewrite main_run. cbv zeta.
    destruct (is_empty (Getenv w "WITHINGS_API_ACCESS_TOKEN")).
    - destruct (_ || _); [split; [repeat constructor|cbn; lia]|].
      rewrite oauthFlow_run. cbv zeta.
      destruct (url_Parse w _) as [m|]; [split; [repeat constructor|cbn; lia]|].
      assert (Hoauth : forall err,
                 Forall only_withings_posts
                   ((errline err
                     ++ Do (token_request withingsAPIBaseURL
                              (Getenv w "WITHINGS_APP_CLIENT_ID")
                              (Getenv w "WITHINGS_APP_CLIENT_SECRET") (Scanln w))
                     :: oauth_prompt withingsAPIBaseURL
                          (Getenv w "WITHINGS_APP_CLIENT_ID")
                          (Getenv w "WITHINGS_APP_CLIENT_SECRET")
                          "user.info,user.metrics") ++ [])).
      { intros err. rewrite app_nil_r. apply Forall_app.
        split; [apply only_withings_posts_errline|].
        constructor; [apply withings_post_token|repeat constructor]. }
      destruct (RoundTrip w _) as [[res|] err].
      + rewrite after_boot. split.
        * apply publish_only_withings_posts. constructor; [exact I|apply Hoauth].
        * etransitivity; [apply publish_requests_bound|].
          cbn [requests flat_map app]. rewrite app_nil_r.
          fold (requests (errline err
                          ++ Do (token_request withingsAPIBaseURL
                                   (Getenv w "WITHINGS_APP_CLIENT_ID")
                                   (Getenv w "WITHINGS_APP_CLIENT_SECRET") (Scanln w))
                          :: oauth_prompt withingsAPIBaseURL
                               (Getenv w "WITHINGS_APP_CLIENT_ID")
                               (Getenv w "WITHINGS_APP_CLIENT_SECRET")
                               "user.info,user.metrics")).
          rewrite requests_app, requests_errline. cbn. lia.
      + rewrite after_boot. cbn [snd trace]. split; [apply Hoauth|].
        rewrite app_nil_r, requests_app, requests_errline. cbn. lia.
    - split; [apply publish_only_withings_posts; constructor|].
      etransitivity; [apply publish_requests_bound|]. cbn. lia. }
  destruct H as [Hall Hlen]. split; [|exact Hlen].
  intros req Hin.
  exact (proj1 (Forall_forall _ _) Hall (Do req) Hin).
Qed.





(** ** When the port is taken *)




(** ** A first measure without a usable value *)

Lemma first_measure_of_document (top bm gm mm : list (string * json))
    (gs ms : list json) :
  sole_member "body" (JObject bm) top ->
  sole_member "measuregrps" (JArray (JObject gm :: gs)) bm ->
  sole_member "Measures" (JArray (JObject mm :: ms)) gm ->
  first_value (parsedMeasures (Doc (JObject top)))
  = Ret (Measures.Value
           (fst (store_members Measures.Measure_field mm Measures.zeroMeasure)) / 1000)%float.
Proof.
  intros Hbody Hgroups Hmeasures.
  unfold first_value, parsedMeasures, json_Unmarshal, Measures.store.
  cbn [store_struct].
  destruct (store_members Measures.field top Measures.zero) as [r errs] eqn:Hr.
  cbn [fst].
  assert (Hb : Measures.Body r
               = fst (store_members Measures.Body_field bm (Measures.mkBody []))).
  { change r with (fst (r, errs)). rewrite <- Hr.
    now rewrite (store_members_sole Measures.Body Measures.field "body" _
                   Measures_body_miss Measures_body_hit _ _ _ Hbody). }
  rewrite Hb.
  rewrite (store_members_sole Measures.MeasureGroups Measures.Body_field "measuregrps" _
             Measures_groups_miss Measures_groups_hit _ _ _ Hgroups).
  cbn [store_slice Measures.MeasureGroups].
  destruct (store_elems_first (store_struct "struct" Measures.Group_field)
              Measures.zeroGroup (JObject gm) gs []) as [xs ->].
  cbn [store_struct hd].
  rewrite (store_members_sole Measures.Measures Measures.Group_field "Measures" _
             Measures_measures_miss Measures_measures_hit _ _ _ Hmeasures).
  cbn [store_slice Measures.Measures Measures.zeroGroup].
  destruct (store_elems_first (store_struct "struct" Measures.Measure_field)
              Measures.zeroMeasure (JObject mm) ms []) as [ys ->].
  reflexivity.
Qed.

Lemma store_float64_not_a_number (v : json) (cur : float) :
  (forall n, v <> JNumber n) -> fst (store_float64 v cur) = cur.
Proof.
  intros Hv. destruct v as [| | n | | |]; try reflexivity.
  now destruct (Hv n).
Qed.

(** X13. When the first measure of the first group has no [value]
    member, or has one that is not a number (a string, say),
    [getWeightMeasurements] returns 0: the field keeps its zero value, the
    decoder's complaint is dropped, and a weight of 0 kg is what gets
    published. *)
Theorem X13_missing_value_reads_as_zero :
  forall (w : World) (base token : string) (s : Proc)
         (res : Response) (err : option string)
         (top bm gm mm : list (string * json)) (gs ms : list json),
    url_Parse w (measure_url base) = None ->
    RoundTrip w (measure_request base token) = (Some res, err) ->
    Body res = Doc (JObject top) ->
    sole_member "body" (JObject bm) top ->
    sole_member "measuregrps" (JArray (JObject gm :: gs)) bm ->
    sole_member "Measures" (JArray (JObject mm :: ms)) gm ->
    without_numeric_value mm ->
    fst (getWeightMeasurements w base token s) = Ret 0%float.
Proof.
  intros w base token s res err top bm gm mm gs ms
         Hurl Hdo Hdoc Hbody Hgroups Hmeasures Hvalue.
  rewrite getWeightMeasurements_run, Hurl, Hdo, Hdoc. cbn [fst].
  rewrite (first_measure_of_document top bm gm mm gs ms Hbody Hgroups Hmeasures).
  destruct Hvalue as [Hnone|(v & Hsole & Hv)].
  - rewrite (store_members_miss Measures.Value Measures.Measure_field "value"
               Measures_value_miss mm Hnone).
    reflexivity.
  - rewrite (store_members_sole Measures.Value Measures.Measure_field "value" _
               Measures_value_miss Measures_value_hit _ _ _ Hsole).
    rewrite store_float64_not_a_number by exact Hv. reflexivity.
Qed.

Lemma X13_string_value_run :
  fst (getWeightMeasurements world_with_string_value withingsAPIBaseURL "abc" boot)
  = Ret 0%float.
Proof.
  refine (X13_missing_value_reads_as_zero world_with_string_value withingsAPIBaseURL
            "abc" boot (mkResponse 200 (Doc measures_with_string_value)) None
            _ _ _ _ [] [] eq_refl eq_refl eq_refl _ _ _ _).
  - apply sole_member_here; [reflexivity|constructor].
  - apply sole_member_here; [reflexivity|constructor].
  - apply sole_member_here; [reflexivity|constructor].
  - right. exists (JString "75000"). split; [|discriminate].
    apply sole_member_here; [reflexivity|constructor].
Defined.

(** ** Status codes *)

Lemma same_but_status_inv (a b : option Response * option string) :
  same_but_status a b ->
  exists err,
    (a = (None, err) /\ b = (None, err))
    \/ (exists r1 r2, a = (Some r1, err) /\ b = (Some r2, err) /\ Body r1 = Body r2).
Proof.
  destruct a as [[r1|] e1], b as [[r2|] e2]; unfold same_but_status; cbn;
    intros [<- H]; try discriminate H; exists e1.
  - right. exists r1, r2. injection H as H. auto.
  - left. auto.
Qed.

Section StatusCodes.
Variables w1 w2 : World.
Hypothesis Hsame : differ_in_status_only w1 w2.

Lemma getWeightMeasurements_status (base token : string) (s : Proc) :
  getWeightMeasurements w1 base token s = getWeightMeasurements w2 base token s.
Proof.
  destruct Hsame as (_ & _ & Hurl & Hrt & _).
  rewrite !getWeightMeasurements_run, (Hurl (measure_url base)).
  destruct (url_Parse w2 _); [reflexivity|].
  destruct (same_but_status_inv _ _ (Hrt (measure_request base token)))
    as [err [[-> ->]|(r1 & r2 & -> & -> & Hbody)]]; [reflexivity|].
  now rewrite Hbody.
Qed.

Lemma oauthFlow_status (base clientID clientSecret scopes : string) (s : Proc) :
  oauthFlow w1 base clientID clientSecret scopes s
  = oauthFlow w2 base clientID clientSecret scopes s.
Proof.
  destruct Hsame as (_ & Hscan & Hurl & Hrt & _).
  rewrite !oauthFlow_run. cbv zeta. rewrite Hscan, (Hurl _).
  destruct (url_Parse w2 _); [reflexivity|].
  destruct (same_but_status_inv _ _
              (Hrt (token_request base clientID clientSecret (Scanln w2))))
    as [err [[-> ->]|(r1 & r2 & -> & -> & Hbody)]]; [reflexivity|].
  now rewrite Hbody.
Qed.

Lemma publish_status (token : string) (t : list event) :
  publish w1 token (mkProc t [] [] []) = publish w2 token (mkProc t [] [] []).
Proof.
  rewrite !publish_run. cbv zeta. rewrite getWeightMeasurements_status.
  destruct Hsame as (_ & _ & _ & _ & -> & ->). reflexivity.
Qed.

End StatusCodes.

(** X14. The status code of a response never matters: in two worlds that
    tell the program the same things except for the status codes of the
    responses, [main] runs the same way, with the same outcome, the same
    output and requests, and the same gauge.  An answer with an error
    status and a well-formed body is taken like any other. *)
Theorem X14_status_codes_are_ignored :
  forall (w1 w2 : World),
    differ_in_status_only w1 w2 ->
    main w1 boot = main w2 boot.
Proof.
  intros w1 w2 Hsame.
  rewrite !main_run. cbv zeta.
  pose proof Hsame as (Henv & _).
  rewrite !Henv, (oauthFlow_status w1 w2 Hsame).
  destruct (is_empty _); [|apply publish_status, Hsame].
  destruct (_ || _); [reflexivity|].
  rewrite oauthFlow_run. cbv zeta.
  destruct (url_Parse w2 _); [reflexivity|].
  destruct (RoundTrip w2 _) as [[res|] err]; [|reflexivity].
  rewrite after_boot. apply publish_status, Hsame.
Qed.

Lemma mock_500_differs_in_status_only :
  differ_in_status_only mock_oauth_world mock_oauth_world_500.
Proof.
  repeat split; try reflexivity;
    unfold mock_oauth_world, mock_oauth_world_500, mock;
    cbn [RoundTrip with_status fst snd]; unfold mock_transport;
    now destruct (String.prefix _ _).
Qed.

Lemma X14_status_500_run :
  main mock_oauth_world boot = main mock_oauth_world_500 boot.
Proof.
  exact (X14_status_codes_are_ignored mock_oauth_world mock_oauth_world_500
           mock_500_differs_in_status_only).
Defined.

(** ** The second program *)


(** ** Other paths *)

(** X16. Once [main] is serving, only [/metrics] is routed: a request for
    any other path gets no exposition and changes nothing. *)
Theorem X16_only_metrics_is_served :
  forall (w : World) (s : Proc),
    main w boot = (Serving, s) ->
    forall (n : nat) (path : string),
      path <> "/metrics" ->
      ServeHTTP w (mkServer s n) path = (NotServed, mkServer s n).
Proof.
  intros w s H n path Hpath. apply main_serving in H.
  destruct H as (token & res & err & v & t & _ & _ & _ & _ & _ & ->).
  unfold ServeHTTP, serving_state. cbn [proc mux find fst].
  assert (Hne : String.eqb "/metrics" path = false).
  { apply String.eqb_neq. congruence. }
  now rewrite Hne.
Qed.

Lemma X16_root_path_run :
  ServeHTTP mock_oauth_world (mkServer (snd (main mock_oauth_world boot)) 0) "/"
  = (NotServed, mkServer (snd (main mock_oauth_world boot)) 0).
Proof.
  refine (X16_only_metrics_is_served mock_oauth_world
            (snd (main mock_oauth_world boot)) eq_refl 0%nat "/" _).
  discriminate.
Defined.

(** ** A token response without a token *)

Lemma store_string_not_a_string (v : json) (cur : string) :
  (forall t, v <> JString t) -> fst (store_string v cur) = cur.
Proof.
  intros Hv. destruct v as [| | | t | |]; try reflexivity.
  now destruct (Hv t).
Qed.

Lemma access_token_without_token (top : list (string * json)) :
  without_string_token top -> access_token (Doc (JObject top)) = "".
Proof.
  intros Htop.
  unfold access_token, parsedRequestToken, json_Unmarshal, RequestToken.store.
  cbn [store_struct].
  destruct (store_members RequestToken.field top RequestToken.zero) as [r errs] eqn:Hr.
  cbn [fst]. change r with (fst (r, errs)). rewrite <- Hr.
  destruct Htop as [Hnone|(bm & Hbody & Hbm)].
  - now rewrite (store_members_miss RequestToken.Body RequestToken.field "body"
                   RequestToken_body_miss top Hnone).
  - rewrite (store_members_sole RequestToken.Body RequestToken.field "body" _
               RequestToken_body_miss RequestToken_body_hit _ _ _ Hbody).
    cbn [store_struct RequestToken.Body RequestToken.zero].
    destruct Hbm as [Hnone|(v & Hsole & Hv)].
    + now rewrite (store_members_miss RequestToken.AccessToken RequestToken.Body_field
                     "access_token" RequestToken_token_miss bm Hnone).
    + rewrite (store_members_sole RequestToken.AccessToken RequestToken.Body_field
                 "access_token" _ RequestToken_token_miss RequestToken_token_hit
                 _ _ _ Hsole).
      now rewrite store_string_not_a_string.
Qed.

(** X17. When the token endpoint answers with a JSON object that has no
    [body], or whose [body] has no [access_token] or one that is not a
    string (the API's answer to a bad code has only a status and an error
    text), [oauthFlow] reports nothing: it prints the export line with an
    empty token and returns the empty string as the access token. *)
Theorem X17_token_response_without_token :
  forall (w : World) (base clientID clientSecret scopes : string) (s : Proc)
         (res : Response) (err : option string) (top : list (string * json)),
    url_Parse w (token_url base clientID clientSecret (Scanln w)) = None ->
    RoundTrip w (token_request base clientID clientSecret (Scanln w)) = (Some res, err) ->
    Body res = Doc (JObject top) ->
    without_string_token top ->
    fst (oauthFlow w base clientID clientSecret scopes s) = Ret (Scanln w, "")
    /\ hd_error (trace (snd (oauthFlow w base clientID clientSecret scopes s)))
       = Some (Stdout ("To avoid reauthenticating every time, run `export WITHINGS_API_ACCESS_TOKEN=`"
                       ++ LF)).
Proof.
  intros w base clientID clientSecret scopes s res err top Hurl Hdo Hdoc Htop.
  rewrite oauthFlow_run. cbv zeta. cbn [URL token_request].
  rewrite Hurl. fold (token_request base clientID clientSecret (Scanln w)).
  rewrite Hdo, Hdoc, (access_token_without_token top Htop).
  split; reflexivity.
Qed.

Lemma X17_refused_code_run :
  fst (oauthFlow world_with_refused_code withingsAPIBaseURL "id" "secret"
         "user.info,user.metrics" boot)
  = Ret ("c0de", "").
Proof.
  refine (proj1 (X17_token_response_without_token world_with_refused_code
                   withingsAPIBaseURL "id" "secret" "user.info,user.metrics" boot
                   (mkResponse 200 (Doc token_refusal)) None _
                   eq_refl eq_refl eq_refl _)).
  left. repeat constructor.
Defined.
